(** * pubmed_parser: the MEDLINE citation field extractors

    A shallow embedding of [pubmed_parser/utils.py] and
    [pubmed_parser/medline_parser.py].

    - Python [str] values are lists of Unicode code points.
    - An lxml element is a tree carrying a tag, an attribute table, an
      optional text, its children and an optional tail.
    - A Python exception is a constructor of [exn]; a function that can
      raise returns a [result].
    - The dictionaries built by the record assembler are finite maps from
      field names to Python values. *)

From Stdlib Require Import List String Ascii NArith Bool DecimalString.
From stdpp Require Import base list gmap strings.

Local Open Scope list_scope.

(** ** Python strings *)

Module PyStr.

Abbreviation char := N.
Abbreviation str := (list N).

(** A literal of the source, as code points. *)
Definition py (s : string) : str :=
  List.map N_of_ascii (list_ascii_of_string s).

Definition char_eqb (a b : char) : bool := N.eqb a b.

Fixpoint str_eqb (a b : str) : bool :=
  match a, b with
  | [], [] => true
  | x :: a', y :: b' => char_eqb x y && str_eqb a' b'
  | _, _ => false
  end.

(** [s.startswith(p)] *)
Fixpoint startswith (p s : str) : bool :=
  match p, s with
  | [], _ => true
  | x :: p', y :: s' => char_eqb x y && startswith p' s'
  | _ :: _, [] => false
  end.

(** [sub in s] *)
Fixpoint contains (sub s : str) : bool :=
  startswith sub s ||
  match s with
  | [] => false
  | _ :: s' => contains sub s'
  end.

(** [s.replace(old, new)] for a non-empty [old]: occurrences are replaced
    from the left and do not overlap; [skip] counts the characters of a
    matched occurrence that are still to be dropped. *)
Fixpoint replace_from (old new : str) (skip : nat) (s : str) : str :=
  match s with
  | [] => []
  | c :: s' =>
      match skip with
      | S k => replace_from old new k s'
      | O =>
          if startswith old s
          then new ++ replace_from old new (Nat.pred (length old)) s'
          else c :: replace_from old new O s'
      end
  end.

Definition replace (old new s : str) : str := replace_from old new O s.

(** [sep.join(l)] *)
Fixpoint join (sep : str) (l : list str) : str :=
  match l with
  | [] => []
  | [x] => x
  | x :: l' => x ++ sep ++ join sep l'
  end.

(** [c.isspace()]: the code points Python classifies as whitespace. *)
Definition isspace (c : char) : bool :=
  ((9 <=? c) && (c <=? 13))%N || ((28 <=? c) && (c <=? 32))%N ||
  (c =? 133)%N || (c =? 160)%N || (c =? 5760)%N ||
  ((8192 <=? c) && (c <=? 8202))%N || (c =? 8232)%N || (c =? 8233)%N ||
  (c =? 8239)%N || (c =? 8287)%N || (c =? 12288)%N.

Fixpoint lstrip (s : str) : str :=
  match s with
  | [] => []
  | c :: s' => if isspace c then lstrip s' else s
  end.

Definition rstrip (s : str) : str := rev (lstrip (rev s)).

(** [s.strip()] *)
Definition strip (s : str) : str := rstrip (lstrip s).

(** The decimal digits of the scripts other than ASCII (general category
    Nd of Unicode 14.0, the database of CPython 3.11): each entry starts a
    run of ten code points with the values 0 to 9. *)
Definition decimal_starts_other : list N :=
  [1632; 1776; 1984; 2406; 2534; 2662; 2790; 2918; 3046; 3174; 3302;
   3430; 3558; 3664; 3792; 3872; 4160; 4240; 6112; 6160; 6470; 6608;
   6784; 6800; 6992; 7088; 7232; 7248; 42528; 43216; 43264; 43472; 43504;
   43600; 44016; 65296; 66720; 68912; 69734; 69872; 69942; 70096; 70384;
   70736; 70864; 71248; 71360; 71472; 71904; 72016; 72784; 73040; 73120;
   92768; 92864; 93008; 120782; 120792; 120802; 120812; 120822; 123200;
   123632; 125264; 130032]%N.

Definition decimal_starts : list N := 48%N :: decimal_starts_other.

Fixpoint decimal_in (starts : list N) (c : char) : option N :=
  match starts with
  | [] => None
  | z :: starts' =>
      if ((z <=? c) && (c <=? z + 9))%N then Some (c - z)%N
      else decimal_in starts' c
  end.

(** The value of a decimal digit, None for another character. *)
Definition decimal_value (c : char) : option N := decimal_in decimal_starts c.

(** [c.isdecimal()]: the class of [\d] in a pattern on str, and of the
    digits that [int] reads. *)
Definition isdecimal_char (c : char) : bool :=
  match decimal_value c with
  | Some _ => true
  | None => false
  end.

(** The characters that are digits without being decimal digits
    (superscripts, circled digits and the like, Unicode 14.0), as ranges
    with both ends included. *)
Definition digit_ranges_other : list (N * N) :=
  [(178, 179); (185, 185); (4969, 4977); (6618, 6618); (8304, 8304);
   (8308, 8313); (8320, 8329); (9312, 9320); (9332, 9340); (9352, 9360);
   (9450, 9450); (9461, 9469); (9471, 9471); (10102, 10110);
   (10112, 10120); (10122, 10130); (68160, 68163); (69216, 69224);
   (69714, 69722); (127232, 127242)]%N.

(** [c.isdigit()] *)
Definition isdigit_char (c : char) : bool :=
  isdecimal_char c ||
  existsb (fun r => ((fst r <=? c) && (c <=? snd r))%N) digit_ranges_other.

(** [s.isdigit()]: every character is a digit and there is at least one. *)
Definition isdigit (s : str) : bool :=
  match s with
  | [] => false
  | _ => forallb isdigit_char s
  end.

(** The number that a string of decimal digits writes. *)
Definition decimal_number (s : str) : N :=
  fold_left (fun acc c => (10 * acc + default 0 (decimal_value c))%N) s 0%N.

(** [str(n)] for a non-negative integer. *)
Definition str_of_int (n : N) : str :=
  py (NilZero.string_of_uint (N.to_uint n)).

End PyStr.
Export PyStr.

(** ** Exceptions *)

Inductive exn : Set :=
| AttributeError   (* attribute access on None *)
| TypeError        (* an operand that is None where a str is needed *)
| IndexError       (* indexing an empty list *)
| ValueError       (* int() on a string that is not a decimal number *)
| XMLSyntaxError.  (* etree.fromstring on text that is not a document *)

Inductive result (A : Type) : Type :=
| Ok (a : A)
| Raise (e : exn).
Arguments Ok {A} a.
Arguments Raise {A} e.

#[global] Instance result_ret : MRet result := fun A a => Ok a.
#[global] Instance result_bind : MBind result := fun A B k r =>
  match r with
  | Ok a => k a
  | Raise e => Raise e
  end.

(** A loop body run over a list, left to right, stopping at the first
    exception. *)
Fixpoint for_each {A B} (f : A -> result B) (l : list A) : result (list B) :=
  match l with
  | [] => Ok []
  | x :: l' => y ← f x; ys ← for_each f l'; Ok (y :: ys)
  end.

(** ** utils.py: month_or_day_formater *)

(** [filter(None, calendar.month_abbr)]: the month abbreviations of the
    English locale; the index of an abbreviation, plus one, is the
    [tm_mon] that [strptime(_, '%b')] returns for it. *)
Definition month_abbr : list str :=
  List.map py
    ["Jan"; "Feb"; "Mar"; "Apr"; "May"; "Jun";
     "Jul"; "Aug"; "Sep"; "Oct"; "Nov"; "Dec"]%string.

Fixpoint index_of (x : str) (l : list str) : option nat :=
  match l with
  | [] => None
  | y :: l' => if str_eqb x y then Some O else option_map S (index_of x l')
  end.

Definition tm_mon (abbr : str) : option N :=
  option_map (fun i => N.of_nat (S i)) (index_of abbr month_abbr).

(** [int(s)]: the number that the decimal digits of [s] write; ValueError
    when [s] is empty or holds another character. *)
Definition int (s : str) : result N :=
  match s with
  | [] => Raise ValueError
  | _ :: _ =>
      if forallb isdecimal_char s then Ok (decimal_number s)
      else Raise ValueError
  end.

Definition two_digits (to_format : N) : str :=
  (if (to_format <? 10)%N then py "0" else py "") ++ str_of_int to_format.

Definition month_or_day_formater (month_or_day : str) : result (option str) :=
  match tm_mon (replace (py ".") (py "") month_or_day) with
  | Some to_format => Ok (Some (two_digits to_format))
  | None =>
      if isdigit (strip month_or_day) && negb (contains (py ".") month_or_day)
      then to_format ← int (strip month_or_day);
           Ok (Some (two_digits to_format))
      else Ok None
  end.

(** ** The lxml element tree *)

#[warnings="-register-all"] Inductive Element : Type :=
| mkElement (tag : str) (attrib : list (str * str)) (text : option str)
            (children : list Element) (tail : option str).

Definition tag (e : Element) : str :=
  match e with mkElement t _ _ _ _ => t end.
Definition attrib (e : Element) : list (str * str) :=
  match e with mkElement _ a _ _ _ => a end.
Definition text (e : Element) : option str :=
  match e with mkElement _ _ x _ _ => x end.
(** [e.getchildren()] *)
Definition children (e : Element) : list Element :=
  match e with mkElement _ _ _ c _ => c end.
Definition tail (e : Element) : option str :=
  match e with mkElement _ _ _ _ x => x end.

(** [attrib.get(key, default)] *)
Fixpoint get (a : list (str * str)) (key default : str) : str :=
  match a with
  | [] => default
  | (k, v) :: a' => if str_eqb k key then v else get a' key default
  end.

(** A path such as ['Abstract/AbstractText'], cut at its slashes. *)
Fixpoint split_slash (s : str) (cur : str) : list str :=
  match s with
  | [] => [cur]
  | c :: s' => if char_eqb c 47%N then cur :: split_slash s' []
               else split_slash s' (cur ++ [c])
  end.

Definition path (s : string) : list str := split_slash (py s) [].

(** [e.findall(path)]: the elements reached from [e] by following the tags
    of the path through children, in document order. *)
Fixpoint findall (p : list str) (e : Element) : list Element :=
  match p with
  | [] => [e]
  | t :: p' =>
      flat_map (findall p') (List.filter (fun c => str_eqb (tag c) t) (children e))
  end.

(** [e.find(path)]: the first such element, or None. *)
Definition find (p : list str) (e : Element) : option Element :=
  head (findall p e).

(** The elements strictly below [e], in document order. *)
Fixpoint descendants (e : Element) : list Element :=
  match e with
  | mkElement _ _ _ cs _ => flat_map (fun c => c :: descendants c) cs
  end.

(** [tree.findall('//' + path)] on a parsed document with root [root]:
    the elements below the root that carry the first tag of the path, in
    document order, each followed by the rest of the path. *)
Definition findall_anywhere (p : list str) (root : Element) : list Element :=
  match p with
  | [] => []
  | t :: p' =>
      flat_map (findall p')
               (List.filter (fun c => str_eqb (tag c) t) (descendants root))
  end.

(** [e.itertext()] *)
Fixpoint itertext (e : Element) : list str :=
  match e with
  | mkElement _ _ x cs _ =>
      option_list x ++
      flat_map (fun c => itertext c ++ option_list (tail c)) cs
  end.

(** [e.xpath('text()')]: the text nodes directly inside [e]. *)
Definition text_nodes (e : Element) : list str :=
  option_list (text e) ++ flat_map (fun c => option_list (tail c)) (children e).

(** ** Python values stored in the output dictionaries *)

Inductive pyval : Type :=
| PStr (s : str)
| PNone
| PNaN              (* numpy.nan, the missing-value marker *)
| PBool (b : bool).

(** The value of [e.text]. *)
Definition of_text (x : option str) : pyval :=
  match x with
  | Some s => PStr s
  | None => PNone
  end.

(** [x or ''] for a str [x]. *)
Definition or_empty (x : str) : str :=
  match x with
  | [] => py ""
  | _ => x
  end.

(** [x or ''] for the text of an element. *)
Definition text_or_empty (x : option str) : str :=
  match x with
  | Some s => or_empty s
  | None => py ""
  end.

(** Attribute access on the result of [find]: AttributeError on None. *)
Definition deref (o : option Element) : result Element :=
  match o with
  | Some e => Ok e
  | None => Raise AttributeError
  end.

(** [e.text.strip()]: AttributeError when the text is None. *)
Definition text_strip (e : Element) : result str :=
  match text e with
  | Some s => Ok (strip s)
  | None => Raise AttributeError
  end.

(** [s + e.text]: TypeError when the text is None. *)
Definition concat_text (s : str) (e : Element) : result str :=
  match text e with
  | Some x => Ok (s ++ x)
  | None => Raise TypeError
  end.

(** ** medline_parser.py: the scalar field extractors *)

Definition parse_pmid (medline : Element) : pyval :=
  match find (path "PMID") medline with
  | Some e => of_text (text e)
  | None => PStr (py "")
  end.

Definition parse_mesh_terms (medline : Element) : result str :=
  match find (path "MeshHeadingList") medline with
  | Some mesh =>
      mesh_terms_list ←
        for_each (fun m =>
                    d ← deref (find (path "DescriptorName") m);
                    concat_text (get (attrib d) (py "UI") (py "") ++ py ":") d)
                 (children mesh);
      Ok (join (py "; ") mesh_terms_list)
  | None => Ok (py "")
  end.

Definition parse_publication_types (medline : Element) : result str :=
  match find (path "Article/PublicationTypeList") medline with
  | Some publication_type_list =>
      publication_types ←
        for_each (fun publication_type =>
                    t ← text_strip publication_type;
                    Ok (get (attrib publication_type) (py "UI") (py "")
                          ++ py ":" ++ or_empty t))
                 (findall (path "PublicationType") publication_type_list);
      Ok (join (py "; ") publication_types)
  | None => Ok (join (py "; ") [])
  end.

Definition parse_keywords (medline : Element) : str :=
  match find (path "KeywordList") medline with
  | Some keyword_list =>
      join (py "; ")
        (flat_map (fun k => option_list (text k))
                  (findall (path "Keyword") keyword_list))
  | None => py ""
  end.

Definition parse_chemical_list (medline : Element) : result str :=
  match find (path "ChemicalList") medline with
  | Some chemicals =>
      chemical_list ←
        for_each (fun chemical =>
                    substance_name ← deref (find (path "NameOfSubstance") chemical);
                    t ← text_strip substance_name;
                    Ok (get (attrib substance_name) (py "UI") (py "")
                          ++ py ":" ++ or_empty t))
                 (findall (path "Chemical") chemicals);
      Ok (join (py "; ") chemical_list)
  | None => Ok (join (py "; ") [])
  end.

(** The loop of [parse_other_id]: [pmc] is overwritten by every text that
    contains "PMC", the other texts are appended to [other_id];
    ['PMC' in oid.text] is a TypeError when the text is None. *)
Fixpoint other_id_loop (oids : list Element) (pmc : str) (other_id : list str)
  : result (str * list str) :=
  match oids with
  | [] => Ok (pmc, other_id)
  | oid :: oids' =>
      match text oid with
      | None => Raise TypeError
      | Some t =>
          if contains (py "PMC") t
          then other_id_loop oids' t other_id
          else other_id_loop oids' pmc (other_id ++ [t])
      end
  end.

Definition parse_other_id (medline : Element) : result (gmap string pyval) :=
  '(pmc, other_id) ← other_id_loop (findall (path "OtherID") medline) (py "") [];
  Ok (<["pmc" := PStr pmc]> (<["other_id" := PStr (join (py "; ") other_id)]> ∅)).

Definition parse_journal_info (medline : Element) : gmap string pyval :=
  let '(medline_ta, nlm_unique_id, issn_linking, country) :=
    match find (path "MedlineJournalInfo") medline with
    | Some journal_info =>
        (match find (path "MedlineTA") journal_info with
         | Some e => text_or_empty (text e)
         | None => py ""
         end,
         match find (path "NlmUniqueID") journal_info with
         | Some e => PStr (text_or_empty (text e))
         | None => PStr (py "")
         end,
         match find (path "ISSNLinking") journal_info with
         | Some e => of_text (text e)
         | None => PStr (py "")
         end,
         match find (path "Country") journal_info with
         | Some e => PStr (text_or_empty (text e))
         | None => PStr (py "")
         end)
    | None => (py "", PStr (py ""), PStr (py ""), PStr (py ""))
    end in
  <["medline_ta" := PStr (strip medline_ta)]>
    (<["nlm_unique_id" := nlm_unique_id]>
       (<["issn_linking" := issn_linking]>
          (<["country" := country]> ∅))).

(** [e.attrib.get('EIdType', '') == 'doi'] *)
Definition is_doi (e : Element) : bool :=
  str_eqb (get (attrib e) (py "EIdType") (py "")) (py "doi").

(** One turn of the loop of [parse_doi]:
    [(e.text.strip() or '') if e.attrib.get('EIdType', '') == 'doi' else '']. *)
Definition doi_of (e : Element) : result str :=
  if is_doi e
  then t ← text_strip e; Ok (or_empty t)
  else Ok (py "").

Fixpoint doi_loop (elocation_ids : list Element) (doi : str) : result str :=
  match elocation_ids with
  | [] => Ok doi
  | e :: es => d ← doi_of e; doi_loop es d
  end.

Definition parse_doi (medline : Element) : result str :=
  article ← deref (find (path "Article") medline);
  doi_loop (findall (path "ELocationID") article) (py "").

(** ** medline_parser.py: date_extractor *)

(** [re.findall(r'\d{4}', s)]: the runs of four digits, from the left,
    without overlap. *)
Fixpoint findall_four_digits (skip : nat) (s : str) : list str :=
  match s with
  | [] => []
  | a :: s' =>
      match skip with
      | S k => findall_four_digits k s'
      | O =>
          match s' with
          | b :: c :: d :: _ =>
              if forallb isdecimal_char [a; b; c; d]
              then [a; b; c; d] :: findall_four_digits 3 s'
              else findall_four_digits O s'
          | _ => []
          end
      end
  end.

(** [month_or_day_formater(e.text)]: the call is an AttributeError when the
    text is None. *)
Definition formater_of_text (x : option str) : result (option str) :=
  match x with
  | Some s => month_or_day_formater s
  | None => Raise AttributeError
  end.

(** The year, month and day that [date_extractor] holds before it
    serializes them (None is a Python None). *)
Definition pubdate_fields (journal : Element) (year_info_only : bool)
  : result (option str * option str * option str) :=
  issue ← match findall (path "JournalIssue") journal with
          | issue :: _ => Ok issue
          | [] => Raise IndexError
          end;
  issue_date ← deref (find (path "PubDate") issue);
  match find (path "Year") issue_date with
  | Some y =>
      let year := text y in
      if year_info_only then Ok (year, None, None)
      else
        match find (path "Month") issue_date with
        | Some m =>
            month ← formater_of_text (text m);
            match find (path "Day") issue_date with
            | Some d =>
                day ← formater_of_text (text d);
                Ok (year, month, day)
            | None => Ok (year, month, None)
            end
        | None => Ok (year, None, None)
        end
  | None =>
      match find (path "MedlineDate") issue_date with
      | Some md =>
          match text md with
          | Some year_text =>
              match findall_four_digits O year_text with
              | year :: _ => Ok (Some year, None, None)
              | [] => Ok (Some (py ""), None, None)
              end
          | None => Raise TypeError
          end
      | None => Ok (Some (py ""), None, None)
      end
  end.

(** [filter(None, [x])]: None and the empty string are dropped. *)
Definition truthy (x : option str) : list str :=
  match x with
  | Some (c :: s) => [c :: s]
  | _ => []
  end.

Definition is_none {A} (x : option A) : bool :=
  match x with
  | None => true
  | Some _ => false
  end.

Definition date_extractor (journal : Element) (year_info_only : bool)
  : result (option str) :=
  '(year, month, day) ← pubdate_fields journal year_info_only;
  if year_info_only || is_none month
  then Ok year
  else Ok (Some (join (py "-") (flat_map truthy [year; month; day]))).

(** ** medline_parser.py: whitespace normalization *)

Definition inp_list : list str * str :=
  ([[32]; [160]; [6158]; [8192]; [8193]; [8194]; [8195]; [8196]; [8197];
    [8198]; [8199]; [8200]; [8201]; [8202]; [8203]; [8239]; [8287];
    [12288]; [65279]]%N,
   [32]%N).

Definition replace_multiple (inp_list : list str * str) (inp_string : str) : str :=
  let replacement := snd inp_list in
  fold_left (fun inp_string x => replace x replacement inp_string)
            (fst inp_list) inp_string.

(** [re.sub(' +', ' ', s)]: every run of spaces becomes one space;
    [in_run] tells that the previous character was a space. *)
Fixpoint sub_spaces (in_run : bool) (s : str) : str :=
  match s with
  | [] => []
  | c :: s' =>
      if char_eqb c 32%N
      then if in_run then sub_spaces true s' else c :: sub_spaces true s'
      else c :: sub_spaces false s'
  end.

(** The two statements applied to the title and to the abstract:
    [s = replace_multiple(inp_list, s)] and
    [s = re.sub(' +', ' ', s.replace("\n", "")).strip()]. *)
Definition normalize_whitespace (s : str) : str :=
  let s := replace_multiple inp_list s in
  strip (sub_spaces false (replace [10%N] (py "") s)).

(** ** utils.py: stringify_children *)

(** [etree.tostring] and [etree.fromstring] belong to lxml. *)
Class Etree := {
  tostring : Element -> str;
  fromstring : str -> result Element
}.

Definition stringify_children `{Etree} (node : Element)
    (subscpt supscpt : option (str * str)) : result str :=
  node ←
    match subscpt, supscpt with
    | None, None => Ok node
    | _, _ =>
        let subscpt := default (py "", py "") subscpt in
        let supscpt := default (py "", py "") supscpt in
        let asstring := tostring node in
        let asstring :=
          if contains (py "<sub>") asstring
          then replace (py "</sub>") (snd subscpt)
                       (replace (py "<sub>") (fst subscpt) asstring)
          else asstring in
        let asstring :=
          if contains (py "<sup>") asstring
          then replace (py "</sup>") (snd supscpt)
                       (replace (py "<sup>") (fst supscpt) asstring)
          else asstring in
        fromstring asstring
    end;
  Ok (join (py "") (itertext node)).

(** ** medline_parser.py: parse_article_info *)

Section Assembler.
Context `{Etree}.

(** The title: the flattened [ArticleTitle], normalized. *)
Definition parse_title (article : Element) (subscpt supscpt : option (str * str))
  : result str :=
  title ← match find (path "ArticleTitle") article with
          | Some e =>
              t ← stringify_children e subscpt supscpt;
              Ok (or_empty (strip t))
          | None => Ok (py "")
          end;
  Ok (normalize_whitespace title).

(** What one [AbstractText] of a structured abstract appends to
    [abstract_list]. *)
Definition abstract_section (category : str) (subscpt supscpt : option (str * str))
    (incl_sections : bool) (abstract : Element) : result (list str) :=
  let label :=
    if incl_sections
    then
      let section := get (attrib abstract) category (py "") in
      if negb (str_eqb section (py "UNASSIGNED"))
      then [[10%N]; get (attrib abstract) category (py "")]
      else []
    else [] in
  section_text ← stringify_children abstract subscpt supscpt;
  Ok (label ++ [strip section_text]).

(** The abstract: the structured, the single-section and the bare
    [Abstract] case, then the normalization. *)
Definition parse_abstract (article : Element) (nlm_category : bool)
    (subscpt supscpt : option (str * str)) (incl_sections : bool) : result str :=
  let category := if nlm_category then py "NlmCategory" else py "Label" in
  abstract ←
    match find (path "Abstract/AbstractText") article with
    | Some first =>
        let sections := findall (path "Abstract/AbstractText") article in
        if (1 <? length sections)%nat
        then
          abstract_list ←
            for_each (abstract_section category subscpt supscpt incl_sections)
                     sections;
          Ok (strip (join (py " ") (concat abstract_list)))
        else
          t ← stringify_children first subscpt supscpt;
          Ok (or_empty (strip t))
    | None =>
        match find (path "Abstract") article with
        | Some a =>
            t ← stringify_children a subscpt supscpt;
            Ok (or_empty (strip t))
        | None => Ok (py "")
        end
    end;
  Ok (normalize_whitespace abstract).

(** The name and the affiliation of one author. *)
Definition author_info (author : Element) : str * str :=
  let firstname :=
    match find (path "Initials") author with
    | Some e => text_or_empty (text e)
    | None => py ""
    end in
  let lastname :=
    match find (path "LastName") author with
    | Some e => text_or_empty (text e)
    | None => py ""
    end in
  let affiliation :=
    match find (path "AffiliationInfo/Affiliation") author with
    | Some e => text_or_empty (text e)
    | None => py ""
    end in
  (strip (firstname ++ py " " ++ lastname), affiliation).

(** The pair [(authors_info, affiliations_info)]. *)
Definition parse_authors (article : Element) : str * str :=
  match find (path "AuthorList") article with
  | Some author_list =>
      let infos := List.map author_info (children author_list) in
      (join (py "; ") (List.map fst infos),
       join [10%N]
            (List.filter (fun a => negb (str_eqb a (py ""))) (List.map snd infos)))
  | None => (py "", py "")
  end.

(** [d.update(other)] *)
Definition update (d other : gmap string pyval) : gmap string pyval :=
  other ∪ d.

Definition parse_article_info (medline : Element)
    (year_info_only nlm_category : bool)
    (subscpt supscpt : option (str * str)) (incl_sections : bool)
  : result (gmap string pyval) :=
  article ← deref (find (path "Article") medline);
  title ← parse_title article subscpt supscpt;
  abstract ← parse_abstract article nlm_category subscpt supscpt incl_sections;
  let '(authors_info, affiliations_info) := parse_authors article in
  journal ← deref (find (path "Journal") article);
  let journal_name :=
    join (py " ") (flat_map text_nodes (findall (path "Title") journal)) in
  pubdate ← date_extractor journal year_info_only;
  let pmid := parse_pmid medline in
  doi ← parse_doi medline;
  mesh_terms ← parse_mesh_terms medline;
  publication_types ← parse_publication_types medline;
  chemical_list ← parse_chemical_list medline;
  let keywords := parse_keywords medline in
  other_id_dict ← parse_other_id medline;
  let journal_info_dict := parse_journal_info medline in
  let dict_out : gmap string pyval :=
    <["title" := PStr title]>
    (<["abstract" := PStr abstract]>
    (<["journal" := PStr journal_name]>
    (<["author" := PStr authors_info]>
    (<["affiliation" := PStr affiliations_info]>
    (<["pubdate" := of_text pubdate]>
    (<["pmid" := pmid]>
    (<["mesh_terms" := PStr mesh_terms]>
    (<["publication_types" := PStr publication_types]>
    (<["chemical_list" := PStr chemical_list]>
    (<["keywords" := PStr keywords]>
    (<["doi" := PStr doi]>
    (<["delete" := PBool false]> ∅)))))))))))) in
  Ok (update (update dict_out other_id_dict) journal_info_dict).

(** ** medline_parser.py: parse_medline_xml *)

(** The stub of one deletion notice [p]. *)
Definition delete_stub (p : Element) : gmap string pyval :=
  <["title" := PNaN]>
  (<["abstract" := PNaN]>
  (<["journal" := PNaN]>
  (<["author" := PNaN]>
  (<["affiliation" := PNaN]>
  (<["pubdate" := PNaN]>
  (<["pmid" := of_text (text p)]>
  (<["doi" := PNaN]>
  (<["other_id" := PNaN]>
  (<["pmc" := PNaN]>
  (<["mesh_terms" := PNaN]>
  (<["keywords" := PNaN]>
  (<["publication_types" := PNaN]>
  (<["chemical_list" := PNaN]>
  (<["delete" := PBool true]>
  (<["medline_ta" := PNaN]>
  (<["nlm_unique_id" := PNaN]>
  (<["issn_linking" := PNaN]>
  (<["country" := PNaN]> ∅)))))))))))))))))).

(** [tree.findall('//DeleteCitation/PMID')] *)
Definition delete_citations (tree : Element) : list Element :=
  findall_anywhere (path "DeleteCitation/PMID") tree.

Definition dict_delete (tree : Element) : list (gmap string pyval) :=
  List.map delete_stub (delete_citations tree).

Definition medline_citations (tree : Element) : list Element :=
  match findall_anywhere (path "MedlineCitationSet/MedlineCitation") tree with
  | [] => findall_anywhere (path "MedlineCitation") tree
  | l => l
  end.

(** The entry point, on the tree that [read_xml] returns. *)
Definition parse_medline_xml (tree : Element)
    (year_info_only nlm_category : bool)
    (subscpt supscpt : option (str * str))
  : result (list (gmap string pyval)) :=
  article_list ←
    for_each (fun m => parse_article_info m year_info_only nlm_category
                                          subscpt supscpt false)
             (medline_citations tree);
  Ok (article_list ++ dict_delete tree).

End Assembler.

(** ** medline_parser.py: parse_grant_id and parse_medline_grant_id *)

(** The text of the first [tag] child of a grant, or [''] without such a
    child. *)
Definition grant_field (tag : string) (grant : Element) : pyval :=
  match find (path tag) grant with
  | Some e => of_text (text e)
  | None => PStr (py "")
  end.

Definition grant_dict (pmid : pyval) (grant : Element) : gmap string pyval :=
  <["pmid" := pmid]>
  (<["grant_id" := grant_field "GrantID" grant]>
  (<["grant_acronym" := grant_field "Acronym" grant]>
  (<["country" := grant_field "Country" grant]>
  (<["agency" := grant_field "Agency" grant]> ∅)))).

Definition parse_grant_id (medline : Element) : result (list (gmap string pyval)) :=
  article ← deref (find (path "Article") medline);
  let pmid := parse_pmid medline in
  match find (path "GrantList") article with
  | Some grants => Ok (List.map (grant_dict pmid) (children grants))
  | None => Ok []
  end.

(** On the tree that [read_xml] returns. *)
Definition parse_medline_grant_id (tree : Element)
  : result (list (gmap string pyval)) :=
  grant_id_list ← for_each parse_grant_id (medline_citations tree);
  Ok (concat grant_id_list).

(** ** utils.py: remove_namespace *)

(** [tag.split('}', 1)[1]]: what follows the first closing brace; None
    stands for the IndexError of a tag without one. *)
Fixpoint after_brace (tag : str) : option str :=
  match tag with
  | [] => None
  | c :: tag' => if char_eqb c 125%N then Some tag' else after_brace tag'
  end.

(** The new tag of one node. *)
Definition local_tag (tag : str) : result str :=
  if startswith (py "{") tag
  then match after_brace tag with
       | Some l => Ok l
       | None => Raise IndexError
       end
  else Ok tag.

(** The tree after the loop over [tree.iter()]: every node, in document
    order, gets its new tag. *)
Fixpoint remove_namespace (node : Element) : result Element :=
  match node with
  | mkElement t a x cs tl =>
      t' ← local_tag t;
      cs' ← (fix iter (cs : list Element) : result (list Element) :=
               match cs with
               | [] => Ok []
               | c :: cs' =>
                   c' ← remove_namespace c; cs'' ← iter cs'; Ok (c' :: cs'')
               end) cs;
      Ok (mkElement t' a x cs' tl)
  end.

(** ** utils.py: the affiliation flatteners *)

(** [c.tag != 'label' and c.tag != 'sup'] *)
Definition is_content (c : Element) : bool :=
  negb (str_eqb (tag c) (py "label")) && negb (str_eqb (tag c) (py "sup")).

Definition stringify_affiliation (node : Element) : str :=
  let parts :=
    [text node] ++
    flat_map (fun c => [if is_content c then text c else Some (py ""); tail c])
             (children node) ++
    [tail node] in
  join (py " ") (flat_map truthy parts).

(** The irregular list that [_recur_children] builds: strings and lists. *)
#[warnings="-register-all"] Inductive nested : Type :=
| NStr (s : str)
| NList (l : list nested).

Fixpoint _recur_children (node : Element) : list nested :=
  match node with
  | mkElement t a x cs tl =>
      match cs with
      | [] =>
          if is_content node
          then [NStr (text_or_empty x)] ++ [NStr (text_or_empty tl)]
          else [NStr (text_or_empty tl)]
      | _ :: _ =>
          [NStr (text_or_empty x)] ++
          List.map (fun c => NList (_recur_children c)) cs ++
          [NStr (text_or_empty tl)]
      end
  end.

(** What [_flatten] yields for one element of the list: the element when
    it is a string, the strings below it when it is a list (the test of
    [collections.Iterable], in the interpreters that provide it). *)
Fixpoint flatten_element (el : nested) : list str :=
  match el with
  | NStr s => [s]
  | NList l => flat_map flatten_element l
  end.

Definition _flatten (l : list nested) : list str := flat_map flatten_element l.

Definition stringify_affiliation_rec (node : Element) : str :=
  let parts := _recur_children node in
  let parts_flatten := _flatten parts in
  strip (join (py " ") parts_flatten).

(** ** Sample documents *)

(** An element without tail, written with the literals of the document. *)
Definition el (t : string) (a : list (string * string)) (x : option string)
    (cs : list Element) : Element :=
  mkElement (py t) (List.map (fun kv => (py (fst kv), py (snd kv))) a)
            (option_map py x) cs None.

(** [<Journal>] with a [PubDate] holding the given Year, Month and Day. *)
Definition journal_dated (year : string) (month day : option string) : Element :=
  el "Journal" [] None
     [el "Title" [] (Some "J Test") [];
      el "JournalIssue" [] None
         [el "PubDate" [] None
             (el "Year" [] (Some year) [] ::
              List.map (fun m => el "Month" [] (Some m) []) (option_list month) ++
              List.map (fun d => el "Day" [] (Some d) []) (option_list day))]].

(** A citation with the given children of [Article] (besides the journal)
    and the given further children of [MedlineCitation]. *)
Definition citation (in_article : list Element) (others : list Element) : Element :=
  el "MedlineCitation" [] None
     (el "PMID" [] (Some "123") [] ::
      el "Article" [] None (journal_dated "1999" (Some "03") (Some "15") :: in_article) ::
      others).

(** A document: the citations and the deletion notices under one root. *)
Definition document (citations : list Element) (deleted : list string) : Element :=
  el "PubmedArticleSet" [] None
     (citations ++
      [el "DeleteCitation" [] None
          (List.map (fun p => el "PMID" [] (Some p) []) deleted)]).

(** The two location identifiers of the DOI example. *)
Definition doi_then_pii : list Element :=
  [el "ELocationID" [("EIdType", "doi")] (Some "10.1/x") [];
   el "ELocationID" [("EIdType", "pii")] (Some "ABC") []].

(** A structured abstract: one [AbstractText] for each pair of a label
    (under [Label]) and a text. *)
Definition abstract_of (sections : list (string * string)) : Element :=
  el "Abstract" [] None
     (List.map (fun lt => el "AbstractText" [("Label", fst lt)] (Some (snd lt)) [])
               sections).

(** The [Article] of a citation with a structured abstract of three
    sections, and the citation. *)
Definition article_structured (t1 t2 t3 : string) : Element :=
  el "Article" [] None
     [journal_dated "1999" (Some "03") (Some "15");
      abstract_of [("INTRODUCTION", t1); ("UNASSIGNED", t2); ("RESULTS", t3)]%string].

Definition citation_structured (t1 t2 t3 : string) : Element :=
  citation [abstract_of [("INTRODUCTION", t1); ("UNASSIGNED", t2); ("RESULTS", t3)]%string] [].

(** A document with one citation with a structured abstract. *)
Definition document_structured : Element :=
  document [citation_structured "a" "b" "c"] [].

(** A document with one citation and two deletion notices. *)
Definition document_with_deletions : Element :=
  document [citation [] []] ["12345"; "6"]%string.

(** Citations on which an extractor meets an absent text or an absent
    sub-element. *)
Definition citation_mesh_without_descriptor : Element :=
  citation [] [el "MeshHeadingList" [] None
                  [el "MeshHeading" [] None
                      [el "QualifierName" [("UI", "Q000188")] (Some "drug therapy") []]]].

Definition citation_other_id_without_text : Element :=
  citation [] [el "OtherID" [("Source", "NLM")] None []].

Definition citation_doi_without_text : Element :=
  citation [el "ELocationID" [("EIdType", "doi")] None []] [].

Definition citation_chemical_without_text : Element :=
  citation [] [el "ChemicalList" [] None
                  [el "Chemical" [] None
                      [el "RegistryNumber" [] (Some "0") [];
                       el "NameOfSubstance" [("UI", "D000001")] None []]]].

Definition citation_publication_type_without_text : Element :=
  citation [el "PublicationTypeList" [] None
               [el "PublicationType" [("UI", "D016428")] None []]] [].

(** A citation whose [ISSNLinking] element is empty. *)
Definition citation_issn_without_text : Element :=
  citation [] [el "MedlineJournalInfo" [] None
                  [el "Country" [] None [];
                   el "MedlineTA" [] (Some "J Test") [];
                   el "NlmUniqueID" [] (Some "0001") [];
                   el "ISSNLinking" [] None []]].

(** A run without subscript or superscript markers never serializes: the
    samples are evaluated with an lxml that is not called. *)
Definition etree_idle : Etree :=
  {| tostring := fun _ => []; fromstring := fun _ => Raise XMLSyntaxError |}.

(** ** Predicates of the statements *)

(** The call returned (it did not raise). *)
Definition is_ok {A} (r : result A) : bool :=
  match r with
  | Ok _ => true
  | Raise _ => false
  end.

(** The Python value is a str. *)
Definition is_str (v : pyval) : Prop :=
  match v with
  | PStr _ => True
  | _ => False
  end.

(** The element carries a text ([e.text] is not None). *)
Definition has_text (e : Element) : Prop := text e <> None.

(** The text of the element is present and contains "PMC". *)
Definition has_pmc (e : Element) : bool :=
  match text e with
  | Some t => contains (py "PMC") t
  | None => false
  end.

(** The texts of the elements that do not contain "PMC", in document
    order. *)
Definition non_pmc_texts (oids : list Element) : list str :=
  flat_map (fun e => match text e with
                     | Some t => if contains (py "PMC") t then [] else [t]
                     | None => []
                     end) oids.

(** The value of [pmc] after the loop of [parse_other_id]: the text of the
    last element that contains "PMC", or the initial value. *)
Definition last_pmc (oids : list Element) (pmc : str) : str :=
  fold_left (fun pmc e => if has_pmc e then default pmc (text e) else pmc)
            oids pmc.

(** The field names of a MedlineRecord. *)
Definition record_fields : list string :=
  ["title"; "abstract"; "journal"; "author"; "affiliation"; "pubdate";
   "pmid"; "doi"; "other_id"; "pmc"; "mesh_terms"; "keywords";
   "publication_types"; "chemical_list"; "medline_ta"; "nlm_unique_id";
   "issn_linking"; "country"; "delete"]%string.

(** [d] is the stub of the deletion notice [p]: it has the fields of a
    record, its pmid is the text of the notice, its delete is True and
    each of its other fields is the missing-value marker. *)
Definition is_stub_of (p : Element) (d : gmap string pyval) : Prop :=
  d !! "pmid"%string = Some (of_text (text p)) /\
  d !! "delete"%string = Some (PBool true) /\
  dom d = list_to_set record_fields /\
  forall k : string,
    k ∈ record_fields -> k <> "pmid"%string -> k <> "delete"%string ->
    d !! k = Some PNaN.

(** The word occurs in the string. *)
Definition occurs (w s : str) : Prop := exists a b, s = a ++ w ++ b.

(** ** Characterizations used in the proofs on whitespace *)

(** The characters that [inp_list] replaces. *)
Definition space_chars : list char :=
  [32; 160; 6158; 8192; 8193; 8194; 8195; 8196; 8197; 8198; 8199; 8200;
   8201; 8202; 8203; 8239; 8287; 12288; 65279]%N.

(** What [replace_multiple] makes of one character, for the replacement
    [" "]. *)
Definition to_space (xs : list char) (c : char) : char :=
  if existsb (N.eqb c) xs then 32%N else c.

Definition not_newline (c : char) : bool := negb (N.eqb c 10).

(** No two spaces follow each other ([prev] tells that a space precedes). *)
Fixpoint no_run (prev : bool) (s : str) : bool :=
  match s with
  | [] => true
  | c :: s' =>
      if char_eqb c 32%N then negb prev && no_run true s'
      else no_run false s'
  end.

(** A character that the normalization neither rewrites nor strips. *)
Definition solid_char (c : char) : bool :=
  negb (existsb (N.eqb c) space_chars) && negb (isspace c).

(** A non-empty word of such characters, such as a section label. *)
Definition solid (w : str) : Prop :=
  w <> [] /\ Forall (fun c => solid_char c = true) w.

(** ** Samples and predicates for the further properties *)

(** The field names of a GrantRecord. *)
Definition grant_fields : list string :=
  ["pmid"; "grant_id"; "grant_acronym"; "country"; "agency"]%string.

(** A citation with two grants, the second without identifier. *)
Definition citation_with_grants : Element :=
  citation [el "GrantList" [("CompleteYN", "Y")] None
               [el "Grant" [] None
                   [el "GrantID" [] (Some "R01 HL1") [];
                    el "Acronym" [] (Some "HL") [];
                    el "Agency" [] (Some "NHLBI NIH HHS") [];
                    el "Country" [] (Some "United States") []];
                el "Grant" [] None
                   [el "Agency" [] (Some "Wellcome Trust") [];
                    el "Country" [] (Some "United Kingdom") []]]] [].

(** A citation without [Article]. *)
Definition citation_without_article : Element :=
  el "MedlineCitation" [] None [el "PMID" [] (Some "7") []].

(** The tree with every tag erased: what the tree holds besides its tags. *)
Fixpoint erase_tags (e : Element) : Element :=
  match e with
  | mkElement _ a x cs tl => mkElement [] a x (List.map erase_tags cs) tl
  end.

(** The tree with every tag written [{ns}tag], as lxml writes the tags of
    the namespace [ns]. *)
Fixpoint qualify (ns : str) (e : Element) : Element :=
  match e with
  | mkElement t a x cs tl =>
      mkElement (py "{" ++ ns ++ py "}" ++ t) a x (List.map (qualify ns) cs) tl
  end.

(** The tag is free of namespace, or its namespace is closed by a brace. *)
Definition tag_splits (t : str) : bool :=
  negb (startswith (py "{") t) || negb (is_none (after_brace t)).

(** A small document in the namespace of MathML. *)
Definition math_sample : Element :=
  el "math" [] None
     [el "mi" [("mathvariant", "normal")] (Some "x") [];
      mkElement (py "mo") [] (Some (py "=")) [] (Some (py " "));
      el "mn" [] (Some "1") []].

(** A child as [stringify_affiliation] sees it: its tag and its tail, its
    text unless it is a label or a sup; no attributes, nothing below. *)
Definition prune (c : Element) : Element :=
  mkElement (tag c) [] (if is_content c then text c else None) [] (tail c).

(** The tree without the texts of its label and sup leaves. *)
Fixpoint blank_markers (e : Element) : Element :=
  match e with
  | mkElement t a x cs tl =>
      match cs with
      | [] => mkElement t a (if is_content e then x else None) [] tl
      | _ :: _ => mkElement t a x (List.map blank_markers cs) tl
      end
  end.

(** No leaf of the tree is a label or a sup. *)
Fixpoint no_marker_leaf (e : Element) : bool :=
  match e with
  | mkElement t a x cs tl =>
      match cs with
      | [] => is_content e
      | _ :: _ => forallb no_marker_leaf cs
      end
  end.

Definition nonempty (s : str) : bool :=
  match s with
  | [] => false
  | _ :: _ => true
  end.

(** An affiliation with a label, a superscript and nested markup. *)
Definition affiliation_sample : Element :=
  el "aff" [("id", "a1")] None
     [mkElement (py "label") [] (Some (py "1")) [] (Some (py "Dept. of Physics,"));
      mkElement (py "institution") [] (Some (py "MIT")) [] (Some (py ", USA"));
      mkElement (py "sup") [] (Some (py "*")) [] None].

Definition affiliation_nested : Element :=
  el "aff" [] (Some "Dept. of") 
     [mkElement (py "italic") [] None
                [mkElement (py "bold") [] (Some (py "Physics")) [] None]
                (Some (py ", MIT"))].

(** [<Journal>] whose [PubDate] holds the given children. *)
Definition journal_of (pubdate : list Element) : Element :=
  el "Journal" [] None
     [el "JournalIssue" [] None [el "PubDate" [] None pubdate]].

(** [e.text is not None] *)
Definition text_present (e : Element) : bool := negb (is_none (text e)).

(** The MeshHeading has a DescriptorName with a text. *)
Definition heading_complete (m : Element) : bool :=
  match find (path "DescriptorName") m with
  | Some d => text_present d
  | None => false
  end.

(** The Chemical has a NameOfSubstance with a text. *)
Definition chemical_complete (c : Element) : bool :=
  match find (path "NameOfSubstance") c with
  | Some n => text_present n
  | None => false
  end.

(** The ELocationID is not doi-typed, or it has a text. *)
Definition doi_readable (e : Element) : bool := negb (is_doi e) || text_present e.

(** An author with a last name only, and one with initials only. *)
Definition author_last_only : Element :=
  el "Author" [] None [el "LastName" [] (Some "Curie") []].

Definition author_initials_only : Element :=
  el "Author" [] None [el "Initials" [] (Some "MS") []].

(** An [Article] with an abstract of one labelled section. *)
Definition article_one_section : Element :=
  el "Article" [] None
     [journal_dated "1999" (Some "03") (Some "15");
      abstract_of [("RESULTS", "It works.")]%string].

(** The characters "0" to "9", a non-empty string of them, and the number
    that it writes. *)
Definition isascii_digit (c : char) : bool := ((48 <=? c) && (c <=? 57))%N.

Definition isascii_digits (s : str) : bool :=
  match s with
  | [] => false
  | _ :: _ => forallb isascii_digit s
  end.

Definition ascii_number (s : str) : N :=
  fold_left (fun acc c => (10 * acc + (c - 48))%N) s 0%N.

(** [<Journal>] whose [PubDate] holds a MedlineDate with the given text. *)
Definition journal_medline_date (year_text : str) : Element :=
  el "Journal" [] None
     [el "JournalIssue" [] None
         [el "PubDate" [] None
             [mkElement (py "MedlineDate") [] (Some year_text) [] None]]].

(** "٢٠٠١ Spring": a year in Arabic-Indic digits. *)
Definition arabic_indic_2001 : str := [1634; 1632; 1632; 1633]%N.

(** ** Inputs on which an element without text stops an extractor *)

(** A doi-typed ELocationID without text, followed by a pii, and followed
    by a doi. *)
Definition doi_without_text_then_pii : list Element :=
  [el "ELocationID" [("EIdType", "doi")] None [];
   el "ELocationID" [("EIdType", "pii")] (Some "ABC") []].

Definition doi_without_text_then_doi : list Element :=
  [el "ELocationID" [("EIdType", "doi")] None [];
   el "ELocationID" [("EIdType", "doi")] (Some "10.1/x") []].

(** Two OtherID nodes with "PMC" in their text, and one without text. *)
Definition citation_pmc_then_other_id_without_text : Element :=
  citation [] [el "OtherID" [("Source", "NLM")] (Some "PMC1") [];
               el "OtherID" [("Source", "NLM")] (Some "PMC3") [];
               el "OtherID" [("Source", "NLM")] None []].

(** A document with a deletion notice for 12345 and two citations, the
    second with an OtherID without text; and the document without that
    second citation. *)
Definition document_notice_and_raising_citation : Element :=
  document [citation [] []; citation_other_id_without_text] ["12345"]%string.

Definition document_notice : Element :=
  document [citation [] []] ["12345"]%string.

(** A tree with a tag that opens a namespace and does not close it. *)
Definition tree_unclosed_namespace : Element :=
  el "article" [] None [el "{http://www.w3.org/1999/xlink" [] None []].

(** * Properties *)

Arguments path _ : simpl never.
Arguments findall _ _ : simpl never.
Arguments find _ _ : simpl never.
Arguments strip _ : simpl never.

(** ** Strings *)

Lemma or_empty_id (x : str) : or_empty x = x.
Proof. destruct x; reflexivity. Qed.

Lemma char_eqb_eq (a b : char) : char_eqb a b = true <-> a = b.
Proof. apply N.eqb_eq. Qed.

Lemma str_eqb_eq (a b : str) : str_eqb a b = true <-> a = b.
Proof.
  revert b; induction a as [|x a IH]; intros [|y b]; simpl; split;
    try congruence; try reflexivity.
  - intros Hab. apply andb_true_iff in Hab as [Hx Ha].
    apply char_eqb_eq in Hx. apply IH in Ha. congruence.
  - intros Hab. injection Hab as -> ->. apply andb_true_iff. split.
    + now apply char_eqb_eq.
    + now apply IH.
Qed.

(** ** The month-or-day formatter *)

(** C2, as stated, fails: "JAN." is not an abbreviation of the (case
    sensitive) table and is not a number, and "13" is a number. *)
Lemma month_or_day_formater_claim_fails :
  ~ (month_or_day_formater (py "Jan") = Ok (Some (py "01")) /\
     month_or_day_formater (py "JAN.") = Ok (Some (py "01")) /\
     month_or_day_formater (py "1") = Ok (Some (py "01")) /\
     month_or_day_formater (py "13") = Ok None /\
     month_or_day_formater (py "Foo") = Ok None).
Proof. intros (_ & Hjan & _). vm_compute in Hjan. discriminate Hjan. Qed.

(** C2 (amended): the month-or-day formatter maps "Jan", "Jan." and "1" to
    "01", maps "13" to "13", and maps "JAN." and "Foo" to the absent
    value. *)
Theorem month_or_day_formater_cases :
  month_or_day_formater (py "Jan") = Ok (Some (py "01")) /\
  month_or_day_formater (py "Jan.") = Ok (Some (py "01")) /\
  month_or_day_formater (py "1") = Ok (Some (py "01")) /\
  month_or_day_formater (py "13") = Ok (Some (py "13")) /\
  month_or_day_formater (py "JAN.") = Ok None /\
  month_or_day_formater (py "Foo") = Ok None.
Proof. repeat split; vm_compute; reflexivity. Qed.

(** ** The date resolver *)



(** With [year_info_only] the Month and Day elements are not looked at:
    whatever the [PubDate] holds besides its Year, the text of the Year is
    returned. *)
Lemma date_extractor_year_only (journal issue issue_date y : Element)
    (rest : list Element) :
  findall (path "JournalIssue") journal = issue :: rest ->
  find (path "PubDate") issue = Some issue_date ->
  find (path "Year") issue_date = Some y ->
  date_extractor journal true = Ok (text y).
Proof.
  intros Hissue Hdate Hyear. unfold date_extractor, pubdate_fields.
  rewrite Hissue. simpl. rewrite Hdate. simpl. rewrite Hyear. reflexivity.
Qed.



(** ** Substrings *)

Lemma startswith_spec (p s : str) :
  startswith p s = true <-> exists b, s = p ++ b.
Proof.
  revert s; induction p as [|x p IH]; intros s; simpl.
  - split; [intros _; now exists s | reflexivity].
  - destruct s as [|y s]; simpl.
    + split; [discriminate | intros [b Hb]; discriminate Hb].
    + rewrite andb_true_iff, char_eqb_eq, IH. split.
      * intros [-> [b ->]]. now exists b.
      * intros [b Hb]. injection Hb as -> ->. split; [reflexivity | now exists b].
Qed.

Lemma contains_spec (w s : str) :
  contains w s = true <-> exists a b, s = a ++ w ++ b.
Proof.
  induction s as [|c s IH].
  - cbn [contains]. rewrite orb_false_r, startswith_spec. split.
    + intros [b Hb]. now exists [], b.
    + intros (a & b & Hab). destruct a as [|? a]; [now exists b | discriminate Hab].
  - cbn [contains]. rewrite orb_true_iff, startswith_spec, IH. split.
    + intros [[b Hb] | (a & b & ->)].
      * now exists [], b.
      * now exists (c :: a), b.
    + intros (a & b & Hab). destruct a as [|x a].
      * left. now exists b.
      * right. injection Hab as -> ->. now exists a, b.
Qed.

(** A word that avoids the character [c] and occurs in [a ++ c :: b]
    occurs in [a] or in [b]. *)
Lemma occurs_split_char (w a b x y : str) (c : char) :
  ~ In c w -> a ++ c :: b = x ++ w ++ y ->
  (exists y', a = x ++ w ++ y') \/ (exists x', b = x' ++ w ++ y).
Proof.
  intros Hc Heq. apply app_eq_app in Heq as [l [[-> Hl] | [-> Hl]]].
  - symmetry in Hl. apply app_eq_app in Hl as [l' [[-> Hl'] | [-> Hl']]].
    + left. now exists l'.
    + destruct l' as [|d l'].
      * left. exists []. now rewrite !app_nil_r.
      * injection Hl' as -> _. exfalso. apply Hc. apply in_or_app. right. now left.
  - destruct l as [|d l].
    + destruct w as [|d w].
      * left. exists []. now rewrite !app_nil_r.
      * injection Hl as -> _. exfalso. apply Hc. now left.
    + injection Hl as _ ->. right. now exists l.
Qed.

Lemma contains_nil_nonempty (w : str) : w <> [] -> contains w [] = false.
Proof. destruct w; [congruence | reflexivity]. Qed.

Lemma contains_app_char (w a b : str) (c : char) :
  ~ In c w -> contains w a = false -> contains w b = false ->
  contains w (a ++ c :: b) = false.
Proof.
  intros Hc Ha Hb. apply not_true_is_false. intros Hab.
  apply contains_spec in Hab as (x & y & Hxy).
  apply occurs_split_char in Hxy as [[y' ->] | [x' ->]]; [| |exact Hc].
  - rewrite (proj2 (contains_spec w _)) in Ha; [discriminate | now exists x, y'].
  - rewrite (proj2 (contains_spec w _)) in Hb; [discriminate | now exists x', y].
Qed.

(** The same for a separator none of whose characters is in the word. *)
Lemma contains_app_sep (w sep a b : str) :
  w <> [] -> sep <> [] -> Forall (fun c => ~ In c w) sep ->
  contains w a = false -> contains w b = false ->
  contains w (a ++ sep ++ b) = false.
Proof.
  intros Hw Hsep Hall. revert a. induction Hall as [|c sep Hc Hall IH]; [congruence|].
  intros a Ha Hb. cbn [app]. apply contains_app_char; [exact Hc | exact Ha |].
  destruct sep as [|d sep]; [exact Hb|].
  apply (IH ltac:(discriminate) []); [now apply contains_nil_nonempty | exact Hb].
Qed.

Lemma contains_join (w sep : str) (l : list str) :
  w <> [] -> sep <> [] -> Forall (fun c => ~ In c w) sep ->
  Forall (fun x => contains w x = false) l ->
  contains w (join sep l) = false.
Proof.
  intros Hw Hsep Hall Hl. induction Hl as [|x l Hx Hl IH].
  - now apply contains_nil_nonempty.
  - destruct l as [|x' l]; [exact Hx|].
    change (join sep (x :: x' :: l)) with (x ++ sep ++ join sep (x' :: l)).
    now apply contains_app_sep.
Qed.

(** ** The DOI extractor *)

Lemma doi_loop_app (pre post : list Element) (doi : str) :
  doi_loop (pre ++ post) doi = (d ← doi_loop pre doi; doi_loop post d).
Proof.
  revert doi; induction pre as [|e pre IH]; intros doi; simpl; [reflexivity|].
  destruct (doi_of e) as [d|x]; simpl; [apply IH | reflexivity].
Qed.

(** The loop returns as soon as every doi-typed element carries a text. *)
Lemma doi_loop_returns (es : list Element) (doi : str) :
  Forall (fun e => is_doi e = true -> has_text e) es ->
  exists d, doi_loop es doi = Ok d.
Proof.
  intros Hes. revert doi. induction Hes as [|e es He Hes IH]; intros doi; simpl.
  - now exists doi.
  - unfold doi_of, text_strip. destruct (is_doi e) eqn:Hdoi; simpl.
    + destruct (text e) as [t|] eqn:Ht; simpl; [apply IH|].
      exfalso. now apply (He eq_refl).
    + apply IH.
Qed.

(** Elements that are not doi-typed leave the empty string. *)
Lemma doi_loop_not_doi (es : list Element) (doi : str) :
  Forall (fun x => is_doi x = false) es ->
  doi_loop es doi = Ok (match es with
                        | [] => doi
                        | _ :: _ => py ""
                        end).
Proof.
  intros Hall. revert doi. induction Hall as [|e es He Hes IH]; intros doi.
  - reflexivity.
  - cbn [doi_loop]. unfold doi_of. rewrite He. simpl. rewrite IH.
    now destruct es.
Qed.

(** When every doi-typed ELocationID carries a text: the DOI field is the
    stripped text of the last doi-typed ELocationID when no element follows
    it, and the empty string when an element follows it; the entries doi
    "10.1/x", pii "ABC" yield the empty string. *)
Theorem parse_doi_last_match_wins :
  (forall (medline article : Element) (pre post : list Element)
          (last_doi : Element) (t : str),
      find (path "Article") medline = Some article ->
      findall (path "ELocationID") article = pre ++ last_doi :: post ->
      Forall (fun e => is_doi e = true -> has_text e) pre ->
      is_doi last_doi = true -> text last_doi = Some t ->
      Forall (fun e => is_doi e = false) post ->
      parse_doi medline = Ok (match post with
                              | [] => strip t
                              | _ :: _ => py ""
                              end)) /\
  parse_doi (citation doi_then_pii []) = Ok (py "").
Proof.
  split; [|vm_compute; reflexivity].
  intros medline article pre post last_doi t Hart Hfind Hpre Hdoi Ht Hpost.
  unfold parse_doi. rewrite Hart. simpl. rewrite Hfind, doi_loop_app.
  destruct (doi_loop_returns pre (py "") Hpre) as [d ->]. simpl.
  unfold doi_of, text_strip. rewrite Hdoi, Ht. simpl. rewrite or_empty_id.
  rewrite (doi_loop_not_doi post _ Hpost). now destruct post.
Qed.

Lemma parse_doi_last_match_wins_witness :
  parse_doi (citation [el "ELocationID" [("EIdType", "pii")] (Some "S1") [];
                       el "ELocationID" [("EIdType", "doi")] (Some " 10.1/x ") []] [])
  = Ok (py "10.1/x").
Proof.
  apply (proj1 parse_doi_last_match_wins
           (citation [el "ELocationID" [("EIdType", "pii")] (Some "S1") [];
                      el "ELocationID" [("EIdType", "doi")] (Some " 10.1/x ") []] [])
           (el "Article" [] None
               [journal_dated "1999" (Some "03") (Some "15");
                el "ELocationID" [("EIdType", "pii")] (Some "S1") [];
                el "ELocationID" [("EIdType", "doi")] (Some " 10.1/x ") []])
           [el "ELocationID" [("EIdType", "pii")] (Some "S1") []]
           []
           (el "ELocationID" [("EIdType", "doi")] (Some " 10.1/x ") [])
           (py " 10.1/x ")).
  - reflexivity.
  - reflexivity.
  - constructor; [|constructor]. intros Hdoi. vm_compute in Hdoi. discriminate Hdoi.
  - reflexivity.
  - reflexivity.
  - constructor.
Defined.

(** ** The other-identifier extractor *)

(** ** The other-identifier extractor *)

Lemma other_id_loop_spec (oids : list Element) (pmc : str) (other_id : list str) :
  Forall has_text oids ->
  other_id_loop oids pmc other_id
  = Ok (last_pmc oids pmc, other_id ++ non_pmc_texts oids).
Proof.
  intros Hall. revert pmc other_id.
  induction Hall as [|oid oids Hoid Hall IH]; intros pmc other_id.
  - simpl. now rewrite app_nil_r.
  - unfold has_text in Hoid. cbn [other_id_loop last_pmc fold_left non_pmc_texts flat_map].
    unfold has_pmc. destruct (text oid) as [t|]; [|congruence].
    destruct (contains (py "PMC") t); rewrite IH; simpl; [reflexivity|].
    now rewrite <- app_assoc.
Qed.

Lemma last_pmc_app (a b : list Element) (pmc : str) :
  last_pmc (a ++ b) pmc = last_pmc b (last_pmc a pmc).
Proof. unfold last_pmc. apply fold_left_app. Qed.

Lemma last_pmc_none (c : list Element) (pmc : str) :
  Forall (fun e => has_pmc e = false) c -> last_pmc c pmc = pmc.
Proof.
  intros Hc. induction Hc as [|e c He Hc IH]; [reflexivity|].
  unfold last_pmc in *. simpl. now rewrite He.
Qed.

Lemma non_pmc_texts_app (a b : list Element) :
  non_pmc_texts (a ++ b) = non_pmc_texts a ++ non_pmc_texts b.
Proof. unfold non_pmc_texts. apply flat_map_app. Qed.

Lemma non_pmc_texts_clean (oids : list Element) :
  Forall (fun x => contains (py "PMC") x = false) (non_pmc_texts oids).
Proof.
  induction oids as [|e oids IH]; [constructor|].
  cbn [non_pmc_texts flat_map]. destruct (text e) as [t|]; [|exact IH].
  destruct (contains (py "PMC") t) eqn:Ht; [exact IH|].
  now constructor.
Qed.

(** No join of texts free of "PMC" contains "PMC". *)
Lemma join_semicolon_no_pmc (l : list str) :
  Forall (fun x => contains (py "PMC") x = false) l ->
  contains (py "PMC") (join (py "; ") l) = false.
Proof.
  apply contains_join; [discriminate | discriminate |].
  repeat constructor; vm_compute; intuition discriminate.
Qed.

(** When every OtherID carries a text: with two OtherID nodes (or more)
    whose text contains "PMC", [pmc] is the text of the last of them, and
    the joined [other_id] holds the other texts only and does not contain
    "PMC". *)
Theorem parse_other_id_last_pmc (medline : Element) (a b c : list Element)
    (p1 p2 : Element) (t1 t2 : str) :
  findall (path "OtherID") medline = a ++ p1 :: b ++ p2 :: c ->
  Forall has_text (a ++ b ++ c) ->
  text p1 = Some t1 -> contains (py "PMC") t1 = true ->
  text p2 = Some t2 -> contains (py "PMC") t2 = true ->
  Forall (fun e => has_pmc e = false) c ->
  let other_id := join (py "; ") (non_pmc_texts (a ++ b ++ c)) in
  parse_other_id medline
  = Ok (<["pmc" := PStr t2]> (<["other_id" := PStr other_id]> ∅)) /\
  contains (py "PMC") other_id = false.
Proof.
  intros Hfind Htexts Ht1 Hp1 Ht2 Hp2 Hc other_id. split.
  - unfold parse_other_id. rewrite Hfind, other_id_loop_spec.
    + cbn [mbind result_bind]. f_equal. f_equal.
      * f_equal. rewrite !last_pmc_app.
        change (p1 :: b ++ p2 :: c) with ([p1] ++ b ++ [p2] ++ c).
        rewrite !last_pmc_app, (last_pmc_none c _ Hc).
        unfold last_pmc at 1. simpl. unfold has_pmc. now rewrite Ht2, Hp2.
      * f_equal. f_equal. unfold other_id. f_equal.
        change (p1 :: b ++ p2 :: c) with ([p1] ++ b ++ [p2] ++ c).
        rewrite !non_pmc_texts_app. unfold non_pmc_texts at 2 4. simpl.
        now rewrite Ht1, Hp1, Ht2, Hp2.
    + apply Forall_app in Htexts as [Ha Hbc].
      apply Forall_app in Hbc as [Hb Hc'].
      apply Forall_app. split; [exact Ha|].
      constructor; [unfold has_text; congruence|].
      apply Forall_app. split; [exact Hb|].
      constructor; [unfold has_text; congruence | exact Hc'].
  - apply join_semicolon_no_pmc, non_pmc_texts_clean.
Qed.

Lemma parse_other_id_last_pmc_witness :
  parse_other_id
    (citation [] [el "OtherID" [] (Some "PMC1") []; el "OtherID" [] (Some "X2") [];
                  el "OtherID" [] (Some "PMC3") []; el "OtherID" [] (Some "Y4") []])
  = Ok (<["pmc" := PStr (py "PMC3")]> (<["other_id" := PStr (py "X2; Y4")]> ∅)) /\
  contains (py "PMC") (py "X2; Y4") = false.
Proof.
  apply (parse_other_id_last_pmc
           (citation [] [el "OtherID" [] (Some "PMC1") []; el "OtherID" [] (Some "X2") [];
                         el "OtherID" [] (Some "PMC3") []; el "OtherID" [] (Some "Y4") []])
           [] [el "OtherID" [] (Some "X2") []] [el "OtherID" [] (Some "Y4") []]
           (el "OtherID" [] (Some "PMC1") []) (el "OtherID" [] (Some "PMC3") [])
           (py "PMC1") (py "PMC3")).
  - reflexivity.
  - repeat constructor; discriminate.
  - reflexivity.
  - reflexivity.
  - reflexivity.
  - reflexivity.
  - repeat constructor.
Defined.

(** ** Totality of the scalar extractors *)

(** The defaults on an absent target path. *)
Lemma parse_pmid_absent (medline : Element) :
  find (path "PMID") medline = None -> parse_pmid medline = PStr (py "").
Proof. intros Hnone. unfold parse_pmid. now rewrite Hnone. Qed.

Lemma parse_mesh_terms_absent (medline : Element) :
  find (path "MeshHeadingList") medline = None ->
  parse_mesh_terms medline = Ok (py "").
Proof. intros Hnone. unfold parse_mesh_terms. now rewrite Hnone. Qed.

Lemma parse_publication_types_absent (medline : Element) :
  find (path "Article/PublicationTypeList") medline = None ->
  parse_publication_types medline = Ok (py "").
Proof. intros Hnone. unfold parse_publication_types. now rewrite Hnone. Qed.

Lemma parse_chemical_list_absent (medline : Element) :
  find (path "ChemicalList") medline = None ->
  parse_chemical_list medline = Ok (py "").
Proof. intros Hnone. unfold parse_chemical_list. now rewrite Hnone. Qed.

Lemma parse_keywords_absent (medline : Element) :
  find (path "KeywordList") medline = None -> parse_keywords medline = py "".
Proof. intros Hnone. unfold parse_keywords. now rewrite Hnone. Qed.

Lemma parse_other_id_absent (medline : Element) :
  findall (path "OtherID") medline = [] ->
  parse_other_id medline
  = Ok (<["pmc" := PStr (py "")]> (<["other_id" := PStr (py "")]> ∅)).
Proof. intros Hnone. unfold parse_other_id. now rewrite Hnone. Qed.

Lemma parse_doi_absent (medline article : Element) :
  find (path "Article") medline = Some article ->
  findall (path "ELocationID") article = [] ->
  parse_doi medline = Ok (py "").
Proof. intros Hart Hnone. unfold parse_doi. rewrite Hart. simpl. now rewrite Hnone. Qed.

(** C1 (the code at the failing inputs): a MeshHeading without
    DescriptorName, and an OtherID, ELocationID, NameOfSubstance or
    PublicationType without text, make the extractor raise. *)
Theorem scalar_extractors_raise :
  parse_mesh_terms citation_mesh_without_descriptor = Raise AttributeError /\
  parse_other_id citation_other_id_without_text = Raise TypeError /\
  parse_doi citation_doi_without_text = Raise AttributeError /\
  parse_chemical_list citation_chemical_without_text = Raise AttributeError /\
  parse_publication_types citation_publication_type_without_text
  = Raise AttributeError.
Proof. repeat split; vm_compute; reflexivity. Qed.

(** ** The fields of the journal information *)

(** Three of the four fields are strings on every citation. *)
Lemma parse_journal_info_strings (medline : Element) :
  exists medline_ta nlm_unique_id country,
    parse_journal_info medline !! "medline_ta"%string = Some (PStr medline_ta) /\
    parse_journal_info medline !! "nlm_unique_id"%string = Some (PStr nlm_unique_id) /\
    parse_journal_info medline !! "country"%string = Some (PStr country).
Proof.
  unfold parse_journal_info.
  destruct (find (path "MedlineJournalInfo") medline) as [journal_info|].
  - destruct (find (path "MedlineTA") journal_info),
             (find (path "NlmUniqueID") journal_info),
             (find (path "ISSNLinking") journal_info),
             (find (path "Country") journal_info);
      do 3 eexists; repeat split; reflexivity.
  - do 3 eexists; repeat split; reflexivity.
Qed.

(** The fourth is the text of [ISSNLinking] as it is: None for an empty
    element. *)
Lemma parse_journal_info_issn_none (medline journal_info e : Element) :
  find (path "MedlineJournalInfo") medline = Some journal_info ->
  find (path "ISSNLinking") journal_info = Some e ->
  text e = None ->
  parse_journal_info medline !! "issn_linking"%string = Some PNone.
Proof.
  intros Hinfo Hissn Htext. unfold parse_journal_info. rewrite Hinfo, Hissn, Htext.
  destruct (find (path "MedlineTA") journal_info),
           (find (path "NlmUniqueID") journal_info),
           (find (path "Country") journal_info); reflexivity.
Qed.

(** ** The record assembler *)

Lemma bind_Ok {A B} (r : result A) (k : A -> result B) (b : B) :
  (r ≫= k) = Ok b -> exists a, r = Ok a /\ k a = Ok b.
Proof. destruct r as [a|e]; simpl; [eauto | discriminate]. Qed.

Lemma is_ok_true {A} (r : result A) : is_ok r = true -> exists a, r = Ok a.
Proof. destruct r as [a|e]; simpl; [eauto | discriminate]. Qed.

Lemma parse_other_id_keys (medline : Element) (o : gmap string pyval) :
  parse_other_id medline = Ok o ->
  exists pmc other_id,
    o = <["pmc"%string := PStr pmc]> (<["other_id"%string := PStr other_id]> ∅).
Proof.
  unfold parse_other_id. intros Ho. apply bind_Ok in Ho as ([pmc other_id] & _ & Ho).
  injection Ho as <-. eauto.
Qed.

Lemma parse_journal_info_keys (medline : Element) :
  exists medline_ta nlm_unique_id issn_linking country,
    parse_journal_info medline
    = <["medline_ta"%string := PStr medline_ta]>
        (<["nlm_unique_id"%string := nlm_unique_id]>
           (<["issn_linking"%string := issn_linking]>
              (<["country"%string := country]> ∅))).
Proof.
  unfold parse_journal_info.
  destruct (match find (path "MedlineJournalInfo") medline with
            | Some journal_info => _
            | None => _
            end) as [[[medline_ta nlm_unique_id] issn_linking] country].
  eauto.
Qed.

Section AssemblerProperties.
Context `{Etree}.

(** What a returned record holds: the fields of the assembler's own
    dictionary, overridden by the two merged dictionaries. *)
Lemma parse_article_info_inv (medline : Element) (year_info_only nlm_category : bool)
    (subscpt supscpt : option (str * str)) (incl_sections : bool)
    (d : gmap string pyval) :
  parse_article_info medline year_info_only nlm_category subscpt supscpt
                     incl_sections = Ok d ->
  exists article abstract other_id_dict base,
    find (path "Article") medline = Some article /\
    parse_abstract article nlm_category subscpt supscpt incl_sections = Ok abstract /\
    parse_other_id medline = Ok other_id_dict /\
    base !! "abstract"%string = Some (PStr abstract) /\
    base !! "pmid"%string = Some (parse_pmid medline) /\
    base !! "delete"%string = Some (PBool false) /\
    d = update (update base other_id_dict) (parse_journal_info medline).
Proof.
  unfold parse_article_info. intros Hd.
  apply bind_Ok in Hd as (article & Harticle & Hd).
  apply bind_Ok in Hd as (title & _ & Hd).
  apply bind_Ok in Hd as (abstract & Habstract & Hd).
  destruct (parse_authors article) as [authors_info affiliations_info].
  apply bind_Ok in Hd as (journal & _ & Hd).
  apply bind_Ok in Hd as (pubdate & _ & Hd).
  apply bind_Ok in Hd as (doi & _ & Hd).
  apply bind_Ok in Hd as (mesh_terms & _ & Hd).
  apply bind_Ok in Hd as (publication_types & _ & Hd).
  apply bind_Ok in Hd as (chemical_list & _ & Hd).
  apply bind_Ok in Hd as (other_id_dict & Hother & Hd).
  injection Hd as <-.
  destruct (find (path "Article") medline) as [a|]; [|discriminate Harticle].
  injection Harticle as ->.
  eexists article, abstract, other_id_dict, _.
  split; [reflexivity|]. split; [exact Habstract|]. split; [exact Hother|].
  split; [|split; [|split; [|reflexivity]]].
  - apply lookup_insert_Some. right. split; [discriminate|].
    apply lookup_insert_eq.
  - do 6 (apply lookup_insert_Some; right; split; [discriminate|]).
    apply lookup_insert_eq.
  - do 12 (apply lookup_insert_Some; right; split; [discriminate|]).
    apply lookup_insert_eq.
Qed.

(** The journal information overrides the record under its own keys. *)
Lemma parse_article_info_journal_issn (medline : Element)
    (year_info_only nlm_category : bool)
    (subscpt supscpt : option (str * str)) (incl_sections : bool)
    (d : gmap string pyval) :
  parse_article_info medline year_info_only nlm_category subscpt supscpt
                     incl_sections = Ok d ->
  d !! "issn_linking"%string = parse_journal_info medline !! "issn_linking"%string.
Proof.
  intros Hd.
  apply parse_article_info_inv in Hd as (? & ? & o & base & _ & _ & _ & _ & _ & _ & ->).
  unfold update.
  destruct (parse_journal_info_keys medline) as (ta & nlm & issn & country & Hinfo).
  rewrite Hinfo at 1. rewrite Hinfo.
  assert (Hissn : (<["medline_ta"%string := PStr ta]>
                     (<["nlm_unique_id"%string := nlm]>
                        (<["issn_linking"%string := issn]>
                           (<["country"%string := country]> (∅ : gmap string pyval)))))
                  !! "issn_linking"%string = Some issn).
  { do 2 (apply lookup_insert_Some; right; split; [discriminate|]).
    apply lookup_insert_eq. }
  rewrite Hissn. now apply lookup_union_Some_l.
Qed.

(** The keys of the merged dictionaries leave [abstract], [pmid] and
    [delete] as the assembler set them. *)
Lemma parse_article_info_own_fields (medline : Element)
    (year_info_only nlm_category : bool)
    (subscpt supscpt : option (str * str)) (incl_sections : bool)
    (d : gmap string pyval) :
  parse_article_info medline year_info_only nlm_category subscpt supscpt
                     incl_sections = Ok d ->
  exists article abstract,
    find (path "Article") medline = Some article /\
    parse_abstract article nlm_category subscpt supscpt incl_sections = Ok abstract /\
    d !! "abstract"%string = Some (PStr abstract) /\
    d !! "pmid"%string = Some (parse_pmid medline) /\
    d !! "delete"%string = Some (PBool false).
Proof.
  intros Hd.
  apply parse_article_info_inv in Hd
    as (article & abstract & o & base & Hart & Habs & Ho & Ha & Hp & Hdel & ->).
  exists article, abstract. split; [exact Hart|]. split; [exact Habs|].
  apply parse_other_id_keys in Ho as (pmc & other_id & ->).
  destruct (parse_journal_info_keys medline) as (ta & nlm & issn & country & ->).
  unfold update.
  repeat split;
    (rewrite lookup_union_r;
     [rewrite lookup_union_r; [assumption|]|];
     repeat (rewrite lookup_insert_ne by discriminate); apply lookup_empty).
Qed.

End AssemblerProperties.

(** C5 (the code at the failing input): the record of a citation whose
    ISSNLinking element is empty holds None, not a string, under
    [issn_linking]. *)
Theorem parse_article_info_issn_linking_none :
  forall year_info_only nlm_category incl_sections : bool,
  exists d,
    @parse_article_info etree_idle citation_issn_without_text
      year_info_only nlm_category None None incl_sections = Ok d /\
    d !! "issn_linking"%string = Some PNone /\
    ~ is_str PNone.
Proof.
  intros year_info_only nlm_category incl_sections.
  destruct (is_ok_true
              (@parse_article_info etree_idle citation_issn_without_text
                 year_info_only nlm_category None None incl_sections)) as [d Hd].
  { destruct year_info_only, nlm_category, incl_sections; vm_compute; reflexivity. }
  exists d. split; [exact Hd|]. split; [|intros []].
  rewrite (parse_article_info_journal_issn _ _ _ _ _ _ _ Hd).
  apply (parse_journal_info_issn_none _
           (el "MedlineJournalInfo" [] None
               [el "Country" [] None [];
                el "MedlineTA" [] (Some "J Test") [];
                el "NlmUniqueID" [] (Some "0001") [];
                el "ISSNLinking" [] None []])
           (el "ISSNLinking" [] None [])); reflexivity.
Qed.

(** ** The batch driver *)

Lemma for_each_Forall2 {A B} (f : A -> result B) (l : list A) (l' : list B) :
  for_each f l = Ok l' -> Forall2 (fun x y => f x = Ok y) l l'.
Proof.
  revert l'; induction l as [|x l IH]; intros l' Hl; simpl in Hl.
  - injection Hl as <-. constructor.
  - apply bind_Ok in Hl as (y & Hy & Hl). apply bind_Ok in Hl as (ys & Hys & Hl).
    injection Hl as <-. constructor; [exact Hy | now apply IH].
Qed.

Lemma delete_stub_is_stub (p : Element) : is_stub_of p (delete_stub p).
Proof.
  unfold is_stub_of, delete_stub. split; [|split; [|split]].
  - do 6 (apply lookup_insert_Some; right; split; [discriminate|]).
    apply lookup_insert_eq.
  - do 14 (apply lookup_insert_Some; right; split; [discriminate|]).
    apply lookup_insert_eq.
  - rewrite !dom_insert_L, dom_empty_L. unfold record_fields. simpl. set_solver.
  - intros k Hk Hpmid Hdelete. unfold record_fields in Hk.
    repeat (apply elem_of_cons in Hk as [-> | Hk];
            [first [congruence
                   | repeat (rewrite lookup_insert_ne by discriminate);
                     apply lookup_insert_eq]|]).
    now apply elem_of_nil in Hk.
Qed.

Section DriverProperties.
Context `{Etree}.

(** Without section labels the label source is not read. *)
Lemma parse_abstract_unlabelled (article : Element) (n1 n2 : bool)
    (subscpt supscpt : option (str * str)) :
  parse_abstract article n1 subscpt supscpt false
  = parse_abstract article n2 subscpt supscpt false.
Proof. destruct n1, n2; reflexivity. Qed.

Lemma parse_article_info_unlabelled (medline : Element) (year_info_only n1 n2 : bool)
    (subscpt supscpt : option (str * str)) :
  parse_article_info medline year_info_only n1 subscpt supscpt false
  = parse_article_info medline year_info_only n2 subscpt supscpt false.
Proof.
  unfold parse_article_info.
  destruct (deref (find (path "Article") medline)) as [article|e]; [|reflexivity].
  cbn [mbind result_bind].
  now rewrite (parse_abstract_unlabelled article n1 n2).
Qed.

(** The entry point has no parameter for the section labels and asks the
    assembler for none: its [nlm_category] changes nothing. *)
Lemma parse_medline_xml_nlm_category_unused (tree : Element)
    (year_info_only n1 n2 : bool) (subscpt supscpt : option (str * str)) :
  parse_medline_xml tree year_info_only n1 subscpt supscpt
  = parse_medline_xml tree year_info_only n2 subscpt supscpt.
Proof.
  unfold parse_medline_xml.
  replace (fun m => parse_article_info m year_info_only n1 subscpt supscpt false)
    with (fun m => parse_article_info m year_info_only n2 subscpt supscpt false);
    [reflexivity|].
  reflexivity.
Qed.

(** When the live citations of the document assemble, the driver returns
    their records, none of them marked deleted, followed by one stub for
    each deletion notice, in order: its pmid is the text of the notice, its
    delete is true, and each of its other fields is the missing-value
    marker. *)
Theorem parse_medline_xml_delete_stubs (tree : Element)
    (year_info_only nlm_category : bool) (subscpt supscpt : option (str * str))
    (article_list : list (gmap string pyval)) :
  for_each (fun m => parse_article_info m year_info_only nlm_category
                                        subscpt supscpt false)
           (medline_citations tree) = Ok article_list ->
  parse_medline_xml tree year_info_only nlm_category subscpt supscpt
  = Ok (article_list ++ dict_delete tree) /\
  Forall (fun d => d !! "delete"%string = Some (PBool false)) article_list /\
  Forall2 is_stub_of (delete_citations tree) (dict_delete tree).
Proof.
  intros Hlive. split; [|split].
  - unfold parse_medline_xml. now rewrite Hlive.
  - apply for_each_Forall2 in Hlive.
    induction Hlive as [|m d l l' Hd _ IH]; constructor; [|exact IH].
    apply parse_article_info_own_fields in Hd as (? & ? & _ & _ & _ & _ & Hdel).
    exact Hdel.
  - unfold dict_delete. induction (delete_citations tree) as [|p l IH]; simpl.
    + constructor.
    + constructor; [apply delete_stub_is_stub | exact IH].
Qed.

End DriverProperties.

Lemma parse_medline_xml_delete_stubs_witness :
  exists article_list,
    @parse_medline_xml etree_idle document_with_deletions true false None None
    = Ok (article_list ++ dict_delete document_with_deletions) /\
    Forall (fun d => d !! "delete"%string = Some (PBool false)) article_list /\
    Forall2 is_stub_of (delete_citations document_with_deletions)
            (dict_delete document_with_deletions).
Proof.
  destruct (is_ok_true
              (for_each (fun m => @parse_article_info etree_idle m true false
                                                      None None false)
                        (medline_citations document_with_deletions)))
    as [article_list Hlive].
  - vm_compute. reflexivity.
  - exists article_list.
    exact (@parse_medline_xml_delete_stubs etree_idle document_with_deletions
             true false None None article_list Hlive).
Defined.

(** The two notices of the sample document, and their stubs. *)
Lemma delete_citations_sample :
  List.map text (delete_citations document_with_deletions)
  = [Some (py "12345"); Some (py "6")] /\
  length (dict_delete document_with_deletions) = 2%nat.
Proof. split; vm_compute; reflexivity. Qed.

(** C4 (the code at the failing input): on a document whose citation has
    a structured abstract, the entry point returns the abstract without
    section labels whatever its parameters are, while the assembler called
    with [incl_sections] returns it with the labels. *)
Theorem parse_medline_xml_never_labels :
  (forall year_info_only nlm_category : bool,
      exists d,
        @parse_medline_xml etree_idle document_structured
          year_info_only nlm_category None None = Ok [d] /\
        d !! "abstract"%string = Some (PStr (py "a b c"))) /\
  (forall year_info_only : bool,
      exists d,
        @parse_article_info etree_idle (citation_structured "a" "b" "c")
          year_info_only false None None true = Ok d /\
        d !! "abstract"%string = Some (PStr (py "INTRODUCTION a b RESULTS c"))).
Proof.
  split.
  - intros year_info_only nlm_category.
    destruct (is_ok_true
                (@parse_article_info etree_idle (citation_structured "a" "b" "c")
                   year_info_only nlm_category None None false)) as [d Hd].
    { destruct year_info_only, nlm_category; vm_compute; reflexivity. }
    exists d. split.
    + unfold parse_medline_xml.
      replace (medline_citations document_structured)
        with [citation_structured "a" "b" "c"] by (vm_compute; reflexivity).
      replace (dict_delete document_structured)
        with (@nil (gmap string pyval)) by (vm_compute; reflexivity).
      cbn [for_each]. rewrite Hd. reflexivity.
    + apply parse_article_info_own_fields in Hd
        as (article & abstract & Hart & Habs & Ha & _).
      rewrite Ha. vm_compute in Hart. injection Hart as <-.
      destruct nlm_category; vm_compute in Habs; injection Habs as <-; reflexivity.
  - intros year_info_only.
    destruct (is_ok_true
                (@parse_article_info etree_idle (citation_structured "a" "b" "c")
                   year_info_only false None None true)) as [d Hd].
    { destruct year_info_only; vm_compute; reflexivity. }
    exists d. split; [exact Hd|].
    apply parse_article_info_own_fields in Hd
      as (article & abstract & Hart & Habs & Ha & _).
    rewrite Ha. vm_compute in Hart. injection Hart as <-.
    vm_compute in Habs. injection Habs as <-. reflexivity.
Qed.

(** ** Whitespace normalization *)

(** Replacing a one-character string is a map over the characters. *)
Lemma replace_char_map (x y : char) (s : str) :
  replace [x] [y] s = List.map (fun c => if N.eqb c x then y else c) s.
Proof.
  unfold replace. induction s as [|c s IH]; [reflexivity|].
  cbn [replace_from startswith List.map length Nat.pred].
  unfold char_eqb. rewrite (N.eqb_sym x c).
  destruct s as [|c' s]; destruct (N.eqb c x); simpl; try reflexivity;
    simpl in IH; now rewrite IH.
Qed.

(** Removing a one-character string is a filter over the characters. *)
Lemma replace_char_filter (x : char) (s : str) :
  replace [x] [] s = List.filter (fun c => negb (N.eqb c x)) s.
Proof.
  unfold replace. induction s as [|c s IH]; [reflexivity|].
  cbn [replace_from startswith List.filter length Nat.pred].
  unfold char_eqb. rewrite (N.eqb_sym x c).
  destruct s as [|c' s]; destruct (N.eqb c x); simpl; try reflexivity;
    simpl in IH; now rewrite IH.
Qed.

Lemma to_space_cons (x : char) (xs : list char) (c : char) :
  to_space xs (if N.eqb c x then 32%N else c) = to_space (x :: xs) c.
Proof.
  unfold to_space. cbn [existsb]. destruct (N.eqb c x); simpl; [|reflexivity].
  now destruct (existsb (N.eqb 32%N) xs).
Qed.

Lemma replace_multiple_chars (xs : list char) (s : str) :
  replace_multiple (List.map (fun c => [c]) xs, [32%N]) s
  = List.map (to_space xs) s.
Proof.
  unfold replace_multiple. cbn [fst snd]. revert s.
  induction xs as [|x xs IH]; intros s.
  - simpl. unfold to_space. simpl. symmetry. apply map_id.
  - cbn [List.map fold_left]. rewrite IH, replace_char_map, map_map.
    apply map_ext. intros c. apply to_space_cons.
Qed.

(** The normalization, character by character. *)
Lemma normalize_whitespace_eq (s : str) :
  normalize_whitespace s
  = strip (sub_spaces false
             (List.filter not_newline (List.map (to_space space_chars) s))).
Proof.
  unfold normalize_whitespace.
  change inp_list with (List.map (fun c => [c]) space_chars, [32%N]).
  rewrite replace_multiple_chars.
  change (py "") with (@nil N). now rewrite replace_char_filter.
Qed.

Lemma to_space_idem (c : char) :
  to_space space_chars (to_space space_chars c) = to_space space_chars c.
Proof.
  unfold to_space at 2 3. destruct (existsb (N.eqb c) space_chars) eqn:Hc.
  - reflexivity.
  - unfold to_space. now rewrite Hc.
Qed.

Lemma no_run_sub_spaces (f : bool) (s : str) : no_run f (sub_spaces f s) = true.
Proof.
  revert f; induction s as [|c s IH]; intros f; [reflexivity|].
  cbn [sub_spaces]. destruct (char_eqb c 32%N) eqn:Hc.
  - destruct f; [apply IH|]. cbn [no_run]. rewrite Hc. apply IH.
  - cbn [no_run]. rewrite Hc. apply IH.
Qed.

Lemma sub_spaces_no_run (f : bool) (s : str) :
  no_run f s = true -> sub_spaces f s = s.
Proof.
  revert f; induction s as [|c s IH]; intros f Hs; [reflexivity|].
  cbn [no_run sub_spaces] in *. destruct (char_eqb c 32%N).
  - apply andb_true_iff in Hs as [Hf Hs]. destruct f; [discriminate Hf|].
    f_equal. now apply IH.
  - f_equal. now apply IH.
Qed.

Lemma no_run_weaken (s : str) : no_run true s = true -> no_run false s = true.
Proof.
  destruct s as [|c s]; [reflexivity|]. cbn [no_run].
  destruct (char_eqb c 32%N); [discriminate | trivial].
Qed.

Lemma no_run_tail (f : bool) (c : char) (s : str) :
  no_run f (c :: s) = true -> no_run false s = true.
Proof.
  cbn [no_run]. destruct (char_eqb c 32%N); [|trivial].
  intros Hs. apply andb_true_iff in Hs as [_ Hs]. now apply no_run_weaken.
Qed.

Lemma no_run_prefix (f : bool) (a b : str) :
  no_run f (a ++ b) = true -> no_run f a = true.
Proof.
  revert f; induction a as [|c a IH]; intros f; [reflexivity|].
  cbn [app no_run]. destruct (char_eqb c 32%N).
  - intros Hs. apply andb_true_iff in Hs as [Hf Hs]. rewrite Hf. now apply (IH true).
  - apply IH.
Qed.

(** [lstrip] cuts a prefix off, and what is left does not start with a
    whitespace character. *)
Lemma lstrip_suffix (s : str) : exists p, s = p ++ lstrip s.
Proof.
  induction s as [|c s [p Hp]]; [now exists []|].
  cbn [lstrip]. destruct (isspace c).
  - exists (c :: p). simpl. now f_equal.
  - now exists [].
Qed.

Lemma lstrip_head (s : str) :
  match lstrip s with
  | [] => True
  | c :: _ => isspace c = false
  end.
Proof.
  induction s as [|c s IH]; [exact I|]. cbn [lstrip].
  destruct (isspace c) eqn:Hc; [exact IH | exact Hc].
Qed.

Lemma lstrip_idem (s : str) : lstrip (lstrip s) = lstrip s.
Proof.
  pose proof (lstrip_head s) as Hs. destruct (lstrip s) as [|c t]; [reflexivity|].
  cbn [lstrip]. now rewrite Hs.
Qed.

Lemma rstrip_prefix (s : str) : exists q, s = rstrip s ++ q.
Proof.
  unfold rstrip. destruct (lstrip_suffix (rev s)) as [p Hp].
  exists (rev p). rewrite <- rev_app_distr, <- Hp. symmetry. apply rev_involutive.
Qed.

Lemma rstrip_idem (s : str) : rstrip (rstrip s) = rstrip s.
Proof. unfold rstrip. now rewrite rev_involutive, lstrip_idem. Qed.

Lemma strip_idem (s : str) : strip (strip s) = strip s.
Proof.
  unfold strip.
  assert (Hl : lstrip (rstrip (lstrip s)) = rstrip (lstrip s)).
  { pose proof (lstrip_head s) as Hs.
    destruct (rstrip_prefix (lstrip s)) as [q Hq].
    destruct (rstrip (lstrip s)) as [|c t]; [reflexivity|].
    rewrite Hq in Hs. cbn [app] in Hs. cbn [lstrip]. now rewrite Hs. }
  rewrite Hl. apply rstrip_idem.
Qed.

(** [strip] keeps a run-free string run-free, and keeps every property of
    the characters. *)
Lemma no_run_lstrip (s : str) : no_run false s = true -> no_run false (lstrip s) = true.
Proof.
  induction s as [|c s IH]; [trivial|]. intros Hs. cbn [lstrip].
  destruct (isspace c); [|exact Hs]. apply IH. now apply (no_run_tail false c).
Qed.

Lemma no_run_strip (s : str) : no_run false s = true -> no_run false (strip s) = true.
Proof.
  intros Hs. unfold strip. apply no_run_lstrip in Hs.
  destruct (rstrip_prefix (lstrip s)) as [q Hq]. rewrite Hq in Hs.
  now apply no_run_prefix in Hs.
Qed.

Lemma Forall_lstrip (P : char -> Prop) (s : str) : Forall P s -> Forall P (lstrip s).
Proof.
  intros Hs. destruct (lstrip_suffix s) as [p Hp]. rewrite Hp in Hs.
  now apply Forall_app in Hs as [_ Hs].
Qed.

Lemma Forall_strip (P : char -> Prop) (s : str) : Forall P s -> Forall P (strip s).
Proof.
  intros Hs. unfold strip. apply Forall_lstrip in Hs.
  destruct (rstrip_prefix (lstrip s)) as [q Hq]. rewrite Hq in Hs.
  now apply Forall_app in Hs as [Hs _].
Qed.

Lemma Forall_sub_spaces (P : char -> Prop) (f : bool) (s : str) :
  Forall P s -> Forall P (sub_spaces f s).
Proof.
  intros Hs. revert f. induction Hs as [|c s Hc Hs IH]; intros f; [constructor|].
  cbn [sub_spaces]. destruct (char_eqb c 32%N); [destruct f|]; auto.
Qed.

(** A string that the normalization leaves as it is. *)
Lemma normalize_whitespace_fixed (t : str) :
  Forall (fun c => to_space space_chars c = c /\ not_newline c = true) t ->
  no_run false t = true ->
  strip t = t ->
  normalize_whitespace t = t.
Proof.
  intros Hchars Hrun Hstrip. rewrite normalize_whitespace_eq.
  assert (Hmap : List.map (to_space space_chars) t = t).
  { clear Hrun Hstrip. induction Hchars as [|c t [Hc _] _ IH]; [reflexivity|].
    simpl. now rewrite Hc, IH. }
  assert (Hfilter : List.filter not_newline t = t).
  { clear Hrun Hstrip Hmap. induction Hchars as [|c t [_ Hc] _ IH]; [reflexivity|].
    simpl. now rewrite Hc, IH. }
  now rewrite Hmap, Hfilter, (sub_spaces_no_run false t Hrun).
Qed.

(** C9: the whitespace normalization is idempotent. *)
Theorem normalize_whitespace_idempotent (s : str) :
  normalize_whitespace (normalize_whitespace s) = normalize_whitespace s.
Proof.
  apply normalize_whitespace_fixed; rewrite normalize_whitespace_eq.
  - apply Forall_strip, Forall_sub_spaces.
    induction s as [|c s IH]; [constructor|].
    cbn [List.map List.filter].
    destruct (not_newline (to_space space_chars c)) eqn:Hc; [|exact IH].
    constructor; [|exact IH]. split; [apply to_space_idem | exact Hc].
  - apply no_run_strip, no_run_sub_spaces.
  - apply strip_idem.
Qed.

(** ** Words that survive the normalization *)

Lemma solid_char_spec (c : char) :
  solid_char c = true ->
  to_space space_chars c = c /\ not_newline c = true /\
  char_eqb c 32%N = false /\ isspace c = false.
Proof.
  unfold solid_char, to_space. intros Hc.
  apply andb_true_iff in Hc as [Hset Hsp].
  apply negb_true_iff in Hset. apply negb_true_iff in Hsp. rewrite Hset.
  split; [reflexivity|]. split; [|split; [|exact Hsp]].
  - unfold not_newline. destruct (N.eqb_spec c 10) as [->|]; [discriminate Hsp | reflexivity].
  - unfold char_eqb. destruct (N.eqb_spec c 32) as [->|]; [discriminate Hsp | reflexivity].
Qed.

Lemma solid_rev (w : str) : solid w -> solid (rev w).
Proof.
  intros [Hne Hall]. split.
  - intros Hrev. apply Hne. rewrite <- (rev_involutive w), Hrev. reflexivity.
  - now apply Forall_rev.
Qed.

Lemma contains_occurs (w s : str) : contains w s = true <-> occurs w s.
Proof. apply contains_spec. Qed.

Lemma occurs_segment (w p m q : str) : occurs w m -> occurs w (p ++ m ++ q).
Proof.
  intros (a & b & ->). exists (p ++ a), (b ++ q). now rewrite <- !app_assoc.
Qed.

(** [strip] returns a segment of its argument. *)
Lemma strip_segment (s : str) : exists p q, s = p ++ strip s ++ q.
Proof.
  destruct (lstrip_suffix s) as [p Hp].
  destruct (rstrip_prefix (lstrip s)) as [q Hq].
  exists p, q. unfold strip. now rewrite <- Hq.
Qed.

Lemma occurs_of_strip (w s : str) : occurs w (strip s) -> occurs w s.
Proof.
  intros Hw. destruct (strip_segment s) as (p & q & Hs). rewrite Hs.
  now apply occurs_segment.
Qed.

Lemma occurs_lstrip (w s : str) : solid w -> occurs w s -> occurs w (lstrip s).
Proof.
  intros [Hne Hall] (a & b & ->). induction a as [|c a IH].
  - destruct w as [|c w]; [congruence|]. inversion Hall as [|? ? Hc _]; subst.
    apply solid_char_spec in Hc as (_ & _ & _ & Hc).
    cbn [app lstrip]. rewrite Hc. now exists [], b.
  - cbn [app lstrip]. destruct (isspace c); [exact IH|]. now exists (c :: a), b.
Qed.

Lemma occurs_rev (w s : str) : occurs w s -> occurs (rev w) (rev s).
Proof.
  intros (a & b & ->). exists (rev b), (rev a).
  now rewrite !rev_app_distr, <- app_assoc.
Qed.

Lemma occurs_strip (w s : str) : solid w -> occurs w s -> occurs w (strip s).
Proof.
  intros Hw Hs. unfold strip, rstrip.
  rewrite <- (rev_involutive w). apply occurs_rev.
  apply occurs_lstrip; [now apply solid_rev|].
  apply occurs_rev. now apply occurs_lstrip.
Qed.

Lemma map_solid (w : str) :
  Forall (fun c => solid_char c = true) w -> List.map (to_space space_chars) w = w.
Proof.
  intros Hall. induction Hall as [|c w Hc _ IH]; [reflexivity|].
  apply solid_char_spec in Hc as (Hc & _). simpl. now rewrite Hc, IH.
Qed.

Lemma filter_solid (w : str) :
  Forall (fun c => solid_char c = true) w -> List.filter not_newline w = w.
Proof.
  intros Hall. induction Hall as [|c w Hc _ IH]; [reflexivity|].
  apply solid_char_spec in Hc as (_ & Hc & _). simpl. now rewrite Hc, IH.
Qed.

Lemma sub_spaces_solid_false (w b : str) :
  Forall (fun c => solid_char c = true) w ->
  sub_spaces false (w ++ b) = w ++ sub_spaces false b.
Proof.
  intros Hall. induction Hall as [|c w Hc _ IH]; [reflexivity|].
  apply solid_char_spec in Hc as (_ & _ & Hc & _).
  cbn [app sub_spaces]. rewrite Hc. now f_equal.
Qed.

Lemma sub_spaces_solid (w b : str) (f : bool) (c : char) :
  Forall (fun c => solid_char c = true) (c :: w) ->
  sub_spaces f ((c :: w) ++ b) = (c :: w) ++ sub_spaces false b.
Proof.
  intros Hall. inversion Hall as [|? ? Hc Hw]; subst.
  apply solid_char_spec in Hc as (_ & _ & Hc & _).
  cbn [app sub_spaces]. rewrite Hc. destruct f; f_equal;
    now apply sub_spaces_solid_false.
Qed.

Lemma sub_spaces_occurs (w a b : str) (f : bool) :
  solid w -> exists a', sub_spaces f (a ++ w ++ b) = a' ++ w ++ sub_spaces false b.
Proof.
  intros [Hne Hall]. revert f. induction a as [|c a IH]; intros f.
  - destruct w as [|c w]; [congruence|]. exists [].
    now apply sub_spaces_solid.
  - cbn [app sub_spaces]. destruct (char_eqb c 32%N).
    + destruct f.
      * apply IH.
      * destruct (IH true) as [a' ->]. now exists (c :: a').
    + destruct (IH false) as [a' ->]. now exists (c :: a').
Qed.

(** A solid word of the string occurs in its normalization. *)
Lemma occurs_normalize (w s : str) :
  solid w -> occurs w s -> occurs w (normalize_whitespace s).
Proof.
  intros Hw (a & b & ->). rewrite normalize_whitespace_eq.
  apply occurs_strip; [exact Hw|].
  rewrite !List.map_app, !List.filter_app.
  rewrite (map_solid w (proj2 Hw)), (filter_solid w (proj2 Hw)).
  destruct (sub_spaces_occurs w
              (List.filter not_newline (List.map (to_space space_chars) a))
              (List.filter not_newline (List.map (to_space space_chars) b))
              false Hw) as [a' ->].
  now eexists _, _.
Qed.

(** Conversely, a solid word of the normalization occurs in the string
    once the newlines are removed. *)
Lemma sub_spaces_prefix_inv (w x b : str) :
  Forall (fun c => solid_char c = true) w ->
  sub_spaces false x = w ++ b -> exists b', x = w ++ b'.
Proof.
  intros Hall. revert x. induction Hall as [|c w Hc _ IH]; intros x Hx.
  - now exists x.
  - apply solid_char_spec in Hc as (_ & _ & Hc & _).
    destruct x as [|d x]; [discriminate Hx|].
    cbn [sub_spaces app] in Hx. destruct (char_eqb d 32%N) eqn:Hd.
    + injection Hx as -> _. congruence.
    + injection Hx as -> Hx. destruct (IH x Hx) as [b' ->]. now exists b'.
Qed.

Lemma occurs_of_sub_spaces (w x : str) (f : bool) :
  solid w -> occurs w (sub_spaces f x) -> occurs w x.
Proof.
  intros [Hne Hall] (a & b & Hx). revert f a Hx.
  induction x as [|d x IH]; intros f a Hx.
  - destruct a, w; try discriminate Hx. congruence.
  - cbn [sub_spaces] in Hx. destruct (char_eqb d 32%N) eqn:Hd.
    + destruct f.
      * pose proof (occurs_segment w [d] x [] (IH true a Hx)) as Hocc.
        now rewrite app_nil_r in Hocc.
      * destruct a as [|h a].
        -- destruct w as [|c w]; [congruence|].
           inversion Hall as [|? ? Hc _]; subst.
           apply solid_char_spec in Hc as (_ & _ & Hc & _).
           injection Hx as -> _. congruence.
        -- injection Hx as _ Hx.
           pose proof (occurs_segment w [d] x [] (IH true a Hx)) as Hocc.
           now rewrite app_nil_r in Hocc.
    + destruct a as [|h a].
      * destruct w as [|c w]; [congruence|].
        inversion Hall as [|? ? Hc Hw]; subst.
        injection Hx as -> Hx.
        destruct (sub_spaces_prefix_inv w x b Hw Hx) as [b' ->].
        now exists [], b'.
      * injection Hx as _ Hx.
        pose proof (occurs_segment w [d] x [] (IH false a Hx)) as Hocc.
        now rewrite app_nil_r in Hocc.
Qed.

Lemma not_newline_to_space (c : char) :
  not_newline (to_space space_chars c) = not_newline c.
Proof.
  unfold to_space. destruct (existsb (N.eqb c) space_chars) eqn:Hc; [|reflexivity].
  unfold not_newline. destruct (N.eqb_spec c 10) as [->|]; [discriminate Hc | reflexivity].
Qed.

Lemma filter_map_to_space (s : str) :
  List.filter not_newline (List.map (to_space space_chars) s)
  = List.map (to_space space_chars) (List.filter not_newline s).
Proof.
  induction s as [|c s IH]; [reflexivity|].
  cbn [List.map List.filter]. rewrite not_newline_to_space.
  destruct (not_newline c); simpl; now rewrite IH.
Qed.

Lemma map_to_space_solid_inv (w' w : str) :
  Forall (fun c => solid_char c = true) w ->
  List.map (to_space space_chars) w' = w -> w' = w.
Proof.
  intros Hall. revert w'. induction Hall as [|c w Hc _ IH]; intros w' Hw'.
  - now destruct w'.
  - destruct w' as [|c' w']; [discriminate Hw'|]. injection Hw' as Hc' Hw'.
    apply solid_char_spec in Hc as (_ & _ & Hc & _).
    f_equal; [|now apply IH].
    unfold to_space in Hc'. destruct (existsb (N.eqb c') space_chars); [|exact Hc'].
    subst c. discriminate Hc.
Qed.

Lemma occurs_of_map_to_space (w z : str) :
  solid w -> occurs w (List.map (to_space space_chars) z) -> occurs w z.
Proof.
  intros [_ Hall] (a & b & Hz).
  apply map_eq_app in Hz as (a' & r & -> & _ & Hr).
  apply map_eq_app in Hr as (w' & b' & -> & Hw' & _).
  apply (map_to_space_solid_inv w' w Hall) in Hw' as ->. now exists a', b'.
Qed.

Lemma occurs_of_normalize (w s : str) :
  solid w -> occurs w (normalize_whitespace s) ->
  occurs w (List.filter not_newline s).
Proof.
  intros Hw Hs. rewrite normalize_whitespace_eq in Hs.
  apply occurs_of_strip, (occurs_of_sub_spaces w _ false Hw) in Hs.
  rewrite filter_map_to_space in Hs. now apply occurs_of_map_to_space in Hs.
Qed.

Lemma occurs_filter_segment (w p m q : str) :
  occurs w (List.filter not_newline m) ->
  occurs w (List.filter not_newline (p ++ m ++ q)).
Proof. intros Hm. rewrite !List.filter_app. now apply occurs_segment. Qed.

Lemma filter_join (P : char -> bool) (sep : str) (l : list str) :
  List.filter P (join sep l) = join (List.filter P sep) (List.map (List.filter P) l).
Proof.
  induction l as [|x l IH]; [reflexivity|].
  destruct l as [|y l]; [reflexivity|].
  change (join sep (x :: y :: l)) with (x ++ sep ++ join sep (y :: l)).
  rewrite !List.filter_app, IH. reflexivity.
Qed.

(** ** The section labels of a structured abstract *)

Lemma solid_introduction : solid (py "INTRODUCTION").
Proof. split; [discriminate | repeat constructor]. Qed.

Lemma solid_results : solid (py "RESULTS").
Proof. split; [discriminate | repeat constructor]. Qed.

Lemma solid_unassigned : solid (py "UNASSIGNED").
Proof. split; [discriminate | repeat constructor]. Qed.

Lemma contains_filter_strip (w x : str) :
  contains w (List.filter not_newline x) = false ->
  contains w (List.filter not_newline (strip x)) = false.
Proof.
  intros Hx. apply not_true_is_false. intros Hs. apply contains_occurs in Hs.
  destruct (strip_segment x) as (p & q & Hpq).
  apply (occurs_filter_segment w p _ q) in Hs. rewrite <- Hpq in Hs.
  apply contains_occurs in Hs. congruence.
Qed.

(** The label UNASSIGNED is not among the pieces that are joined: the
    word can only come from the texts. *)
Lemma unassigned_from_texts (x1 x2 x3 : str) :
  contains (py "UNASSIGNED")
    (normalize_whitespace
       (strip (join (py " ")
                    [[10%N]; py "INTRODUCTION"; strip x1; strip x2;
                     [10%N]; py "RESULTS"; strip x3]))) = true ->
  exists x, In x [x1; x2; x3] /\
            contains (py "UNASSIGNED") (List.filter not_newline x) = true.
Proof.
  intros Hu. apply contains_occurs in Hu.
  apply (occurs_of_normalize _ _ solid_unassigned) in Hu.
  destruct (strip_segment (join (py " ")
                             [[10%N]; py "INTRODUCTION"; strip x1; strip x2;
                              [10%N]; py "RESULTS"; strip x3])) as (p & q & Hpq).
  apply (occurs_filter_segment _ p _ q) in Hu. rewrite <- Hpq in Hu.
  apply contains_occurs in Hu. rewrite filter_join in Hu.
  destruct (contains (py "UNASSIGNED") (List.filter not_newline x1)) eqn:H1;
    [exists x1; split; [now left | exact H1]|].
  destruct (contains (py "UNASSIGNED") (List.filter not_newline x2)) eqn:H2;
    [exists x2; split; [right; now left | exact H2]|].
  destruct (contains (py "UNASSIGNED") (List.filter not_newline x3)) eqn:H3;
    [exists x3; split; [right; right; now left | exact H3]|].
  exfalso. rewrite contains_join in Hu; [discriminate Hu | discriminate | discriminate | |].
  - repeat constructor. vm_compute. intuition discriminate.
  - cbn [List.map]. repeat constructor; try reflexivity;
      now apply contains_filter_strip.
Qed.

Section AbstractProperties.
Context `{Etree}.

(** C8 (amended): with section labels requested, the abstract of three
    sections labelled INTRODUCTION, UNASSIGNED and RESULTS is the
    normalization of the two labels and the three texts, the second text
    without label; it contains INTRODUCTION and RESULTS, and it contains
    UNASSIGNED only when the text of a section does. *)
Theorem parse_abstract_section_labels (article s1 s2 s3 : Element)
    (nlm_category : bool) (subscpt supscpt : option (str * str))
    (x1 x2 x3 : str) :
  findall (path "Abstract/AbstractText") article = [s1; s2; s3] ->
  get (attrib s1) (if nlm_category then py "NlmCategory" else py "Label") (py "")
  = py "INTRODUCTION" ->
  get (attrib s2) (if nlm_category then py "NlmCategory" else py "Label") (py "")
  = py "UNASSIGNED" ->
  get (attrib s3) (if nlm_category then py "NlmCategory" else py "Label") (py "")
  = py "RESULTS" ->
  stringify_children s1 subscpt supscpt = Ok x1 ->
  stringify_children s2 subscpt supscpt = Ok x2 ->
  stringify_children s3 subscpt supscpt = Ok x3 ->
  exists abstract,
    parse_abstract article nlm_category subscpt supscpt true = Ok abstract /\
    abstract
    = normalize_whitespace
        (strip (join (py " ")
                     [[10%N]; py "INTRODUCTION"; strip x1; strip x2;
                      [10%N]; py "RESULTS"; strip x3])) /\
    contains (py "INTRODUCTION") abstract = true /\
    contains (py "RESULTS") abstract = true /\
    (contains (py "UNASSIGNED") abstract = true ->
     exists x, In x [x1; x2; x3] /\
               contains (py "UNASSIGNED") (List.filter not_newline x) = true).
Proof.
  intros Hfind Hl1 Hl2 Hl3 Hx1 Hx2 Hx3. eexists. split; [|split; [reflexivity|]].
  - unfold parse_abstract, find. rewrite Hfind. cbn [head length Nat.ltb Nat.leb].
    cbn [for_each]. unfold abstract_section.
    rewrite Hl1, Hl2, Hl3, Hx1, Hx2, Hx3. reflexivity.
  - split; [|split].
    + apply contains_occurs, occurs_normalize, occurs_strip;
        try apply solid_introduction.
      exists ([10%N] ++ py " "), (py " " ++ strip x1 ++ py " " ++ strip x2 ++ py " " ++
                     [10%N] ++ py " " ++ py "RESULTS" ++ py " " ++ strip x3).
      reflexivity.
    + apply contains_occurs, occurs_normalize, occurs_strip;
        try apply solid_results.
      exists ([10%N] ++ py " " ++ py "INTRODUCTION" ++ py " " ++ strip x1 ++ py " " ++
                strip x2 ++ py " " ++ [10%N] ++ py " "),
             (py " " ++ strip x3).
      cbn [join]. rewrite <- !app_assoc. reflexivity.
    + apply unassigned_from_texts.
Qed.

End AbstractProperties.

Lemma parse_abstract_section_labels_witness :
  exists abstract,
    @parse_abstract etree_idle (article_structured "a" "b" "c") false None None true
    = Ok abstract /\
    abstract
    = normalize_whitespace
        (strip (join (py " ")
                     [[10%N]; py "INTRODUCTION"; strip (py "a"); strip (py "b");
                      [10%N]; py "RESULTS"; strip (py "c")])) /\
    contains (py "INTRODUCTION") abstract = true /\
    contains (py "RESULTS") abstract = true /\
    (contains (py "UNASSIGNED") abstract = true ->
     exists x, In x [py "a"; py "b"; py "c"] /\
               contains (py "UNASSIGNED") (List.filter not_newline x) = true).
Proof.
  apply (@parse_abstract_section_labels etree_idle
           (article_structured "a" "b" "c")
           (el "AbstractText" [("Label", "INTRODUCTION")] (Some "a") [])
           (el "AbstractText" [("Label", "UNASSIGNED")] (Some "b") [])
           (el "AbstractText" [("Label", "RESULTS")] (Some "c") [])
           false None None (py "a") (py "b") (py "c")); reflexivity.
Defined.

(** C8, as stated, fails: the labels are INTRODUCTION, UNASSIGNED and
    RESULTS and the abstract contains UNASSIGNED, from the text of a
    section. *)
Lemma parse_abstract_contains_unassigned :
  List.map (fun s => get (attrib s) (py "Label") (py ""))
           (findall (path "Abstract/AbstractText")
                    (article_structured "a" "UNASSIGNED b" "c"))
  = [py "INTRODUCTION"; py "UNASSIGNED"; py "RESULTS"] /\
  @parse_abstract etree_idle (article_structured "a" "UNASSIGNED b" "c")
    false None None true
  = Ok (py "INTRODUCTION a UNASSIGNED b RESULTS c") /\
  contains (py "UNASSIGNED") (py "INTRODUCTION a UNASSIGNED b RESULTS c") = true.
Proof. repeat split; vm_compute; reflexivity. Qed.

(** * Further properties *)

(** ** Loops and trees *)

Lemma for_each_is_ok {A B} (f : A -> result B) (l : list A) :
  is_ok (for_each f l) = forallb (fun x => is_ok (f x)) l.
Proof.
  induction l as [|x l IH]; [reflexivity|].
  cbn [for_each forallb]. destruct (f x) as [y|e]; simpl; [|reflexivity].
  rewrite <- IH. now destruct (for_each f l).
Qed.

Lemma for_each_returns {A B} (f : A -> result B) (l : list A) :
  Forall (fun x => exists y, f x = Ok y) l ->
  exists l', for_each f l = Ok l' /\ Forall2 (fun x y => f x = Ok y) l l'.
Proof.
  intros Hl. induction Hl as [|x l [y Hy] _ (l' & Hl' & Hall)].
  - exists []. split; [reflexivity | constructor].
  - exists (y :: l'). cbn [for_each]. rewrite Hy, Hl'. split; [reflexivity|].
    now constructor.
Qed.

Lemma for_each_raises {A B} (f : A -> result B) (l : list A) (e : exn) :
  Exists (fun x => f x = Raise e) l ->
  Forall (fun x => is_ok (f x) = true \/ f x = Raise e) l ->
  for_each f l = Raise e.
Proof.
  intros Hex Hall. induction Hall as [|x l Hx Hall IH]; [inversion Hex|].
  cbn [for_each]. destruct Hx as [Hx | Hx]; [|now rewrite Hx].
  destruct (f x) as [y|e'] eqn:Hfx; [|discriminate Hx]. simpl.
  inversion Hex as [? ? Hhead | ? ? Htail]; subst; [congruence|].
  now rewrite (IH Htail).
Qed.

(** Induction on an element, with the property for all its children. *)
Lemma Element_nested_ind (P : Element -> Prop) :
  (forall t a x cs tl, Forall P cs -> P (mkElement t a x cs tl)) ->
  forall e, P e.
Proof.
  intros Hnode. fix IH 1. intros [t a x cs tl]. apply Hnode.
  induction cs as [|c cs IHcs]; constructor; [apply IH | exact IHcs].
Qed.

(** ** The grant extractor *)

Lemma grant_dict_fields (pmid : pyval) (grant : Element) :
  grant_dict pmid grant !! "pmid"%string = Some pmid /\
  dom (grant_dict pmid grant) = list_to_set grant_fields.
Proof.
  unfold grant_dict. split; [apply lookup_insert_eq|].
  rewrite !dom_insert_L, dom_empty_L. unfold grant_fields. simpl. set_solver.
Qed.

Lemma parse_grant_id_returns (medline : Element) :
  is_Some (find (path "Article") medline) ->
  exists grant_list, parse_grant_id medline = Ok grant_list.
Proof.
  intros [article Harticle]. unfold parse_grant_id. rewrite Harticle.
  cbn [deref mbind result_bind].
  destruct (find (path "GrantList") article); eauto.
Qed.

Lemma parse_grant_id_raises (medline : Element) :
  find (path "Article") medline = None ->
  parse_grant_id medline = Raise AttributeError.
Proof. intros Hnone. unfold parse_grant_id. now rewrite Hnone. Qed.

(** X1: without an Article the grant extractor raises AttributeError;
    with one, it returns one record for each child of the GrantList (none
    without a GrantList), each with the five fields of a grant record and
    the pmid of the citation. *)
Theorem parse_grant_id_records (medline : Element) :
  match find (path "Article") medline with
  | None => parse_grant_id medline = Raise AttributeError
  | Some article =>
      exists grant_list,
        parse_grant_id medline = Ok grant_list /\
        length grant_list
        = match find (path "GrantList") article with
          | Some grants => length (children grants)
          | None => O
          end /\
        Forall (fun d => d !! "pmid"%string = Some (parse_pmid medline) /\
                         dom d = list_to_set grant_fields) grant_list
  end.
Proof.
  unfold parse_grant_id.
  destruct (find (path "Article") medline) as [article|]; [|reflexivity].
  cbn [deref mbind result_bind].
  destruct (find (path "GrantList") article) as [grants|].
  - eexists. split; [reflexivity|]. split; [now rewrite length_map|].
    apply Forall_map. apply Forall_forall. intros grant _. apply grant_dict_fields.
  - exists []. split; [reflexivity|]. split; [reflexivity | constructor].
Qed.

(** X2: when every citation of the document has an Article, the grant
    driver returns the grant lists of the citations, concatenated in the
    order of the citations; when one citation has none, it raises
    AttributeError and returns no grant at all. *)
Theorem parse_medline_grant_id_concat (tree : Element) :
  (Forall (fun m => is_Some (find (path "Article") m)) (medline_citations tree) ->
   exists per_citation,
     Forall2 (fun m l => parse_grant_id m = Ok l) (medline_citations tree)
             per_citation /\
     parse_medline_grant_id tree = Ok (concat per_citation)) /\
  (Exists (fun m => find (path "Article") m = None) (medline_citations tree) ->
   parse_medline_grant_id tree = Raise AttributeError).
Proof.
  unfold parse_medline_grant_id. split.
  - intros Hall.
    destruct (for_each_returns parse_grant_id (medline_citations tree))
      as (per_citation & Hper & Hall2).
    { eapply Forall_impl; [exact Hall|]. intros m Hm. now apply parse_grant_id_returns. }
    exists per_citation. split; [exact Hall2|]. now rewrite Hper.
  - intros Hex. rewrite (for_each_raises parse_grant_id _ AttributeError); [reflexivity | |].
    + eapply Exists_impl; [exact Hex|]. intros m Hm. now apply parse_grant_id_raises.
    + apply Forall_forall. intros m _.
      destruct (find (path "Article") m) as [article|] eqn:Harticle.
      * left. destruct (parse_grant_id_returns m) as [l ->]; [now exists article | reflexivity].
      * right. now apply parse_grant_id_raises.
Qed.

Lemma parse_medline_grant_id_concat_witness :
  (exists per_citation,
     Forall2 (fun m l => parse_grant_id m = Ok l)
             (medline_citations (document [citation_with_grants; citation [] []] []))
             per_citation /\
     parse_medline_grant_id (document [citation_with_grants; citation [] []] [])
     = Ok (concat per_citation)) /\
  parse_medline_grant_id
    (document [citation_with_grants; citation_without_article] [])
  = Raise AttributeError.
Proof.
  split.
  - apply (proj1 (parse_medline_grant_id_concat
                    (document [citation_with_grants; citation [] []] []))).
    repeat constructor; eexists; reflexivity.
  - apply (proj2 (parse_medline_grant_id_concat
                    (document [citation_with_grants; citation_without_article] []))).
    right. left. reflexivity.
Defined.

(** ** Removing namespaces *)

Lemma remove_namespace_eq (t : str) (a : list (str * str)) (x : option str)
    (cs : list Element) (tl : option str) :
  remove_namespace (mkElement t a x cs tl)
  = (t' ← local_tag t; cs' ← for_each remove_namespace cs;
     Ok (mkElement t' a x cs' tl)).
Proof.
  cbn [remove_namespace]. destruct (local_tag t) as [t'|e]; [|reflexivity].
  cbn [mbind result_bind]. f_equal.
  induction cs as [|c cs IH]; [reflexivity|].
  cbn [for_each]. now rewrite IH.
Qed.

Lemma itertext_erase_tags (e : Element) : itertext (erase_tags e) = itertext e.
Proof.
  induction e as [t a x cs tl IH] using Element_nested_ind.
  cbn [erase_tags itertext]. f_equal.
  induction IH as [|c cs Hc _ IHcs]; [reflexivity|].
  cbn [List.map flat_map]. rewrite Hc, IHcs. now destruct c.
Qed.

(** X3: when it returns, [remove_namespace] has changed nothing but tags:
    the attributes, texts, tails and the shape of the tree are those of the
    input, and so is the text that [itertext] collects. *)
Theorem remove_namespace_keeps_content (e e' : Element) :
  remove_namespace e = Ok e' ->
  erase_tags e' = erase_tags e /\ itertext e' = itertext e.
Proof.
  intros He.
  assert (Herase : erase_tags e' = erase_tags e).
  { revert e' He. induction e as [t a x cs tl IH] using Element_nested_ind.
    intros e' He. rewrite remove_namespace_eq in He.
    apply bind_Ok in He as (t' & _ & He). apply bind_Ok in He as (cs' & Hcs & He).
    injection He as <-. cbn [erase_tags]. f_equal.
    apply for_each_Forall2 in Hcs. clear t' t a x tl.
    induction Hcs as [|c c' cs cs' Hc _ IHcs]; [reflexivity|].
    inversion IH as [|? ? IHc IHrest]; subst.
    cbn [List.map]. now rewrite (IHc c' Hc), (IHcs IHrest). }
  split; [exact Herase|].
  now rewrite <- (itertext_erase_tags e'), Herase, itertext_erase_tags.
Qed.

Lemma remove_namespace_keeps_content_witness :
  erase_tags math_sample = erase_tags (qualify (py "http://www.w3.org/1998/Math/MathML") math_sample) /\
  itertext math_sample = itertext (qualify (py "http://www.w3.org/1998/Math/MathML") math_sample).
Proof.
  apply (remove_namespace_keeps_content
           (qualify (py "http://www.w3.org/1998/Math/MathML") math_sample)
           math_sample).
  vm_compute. reflexivity.
Defined.

Lemma for_each_Raise {A B} (f : A -> result B) (l : list A) (x : exn) :
  for_each f l = Raise x -> Exists (fun a => f a = Raise x) l.
Proof.
  induction l as [|a l IH]; [discriminate|].
  cbn [for_each]. destruct (f a) as [b|x'] eqn:Ha.
  - cbn [mbind result_bind]. destruct (for_each f l) as [bs|x''] eqn:Hl.
    + discriminate.
    + cbn [mbind result_bind]. intros Hx. injection Hx as ->.
      apply Exists_cons_tl. now apply IH.
  - cbn [mbind result_bind]. intros Hx. injection Hx as ->. now apply Exists_cons_hd.
Qed.

(** The only exception of [remove_namespace] is the IndexError of
    [tag.split('}', 1)[1]]. *)
Lemma remove_namespace_raises (e : Element) (x : exn) :
  remove_namespace e = Raise x -> x = IndexError.
Proof.
  revert x. induction e as [t a o cs tl IH] using Element_nested_ind. intros x.
  rewrite remove_namespace_eq. unfold local_tag.
  destruct (startswith (py "{") t); [destruct (after_brace t) as [l|]|].
  - cbn [mbind result_bind].
    destruct (for_each remove_namespace cs) as [cs'|x'] eqn:Hcs; [discriminate|].
    cbn [mbind result_bind]. intros Hx. injection Hx as ->.
    apply for_each_Raise in Hcs. apply List.Exists_exists in Hcs as (c & Hin & Hc).
    rewrite List.Forall_forall in IH. now apply (IH c Hin).
  - cbn [mbind result_bind]. intros Hx. now injection Hx as <-.
  - cbn [mbind result_bind].
    destruct (for_each remove_namespace cs) as [cs'|x'] eqn:Hcs; [discriminate|].
    cbn [mbind result_bind]. intros Hx. injection Hx as ->.
    apply for_each_Raise in Hcs. apply List.Exists_exists in Hcs as (c & Hin & Hc).
    rewrite List.Forall_forall in IH. now apply (IH c Hin).
Qed.

(** X4: [remove_namespace] returns exactly when every tag of the tree that
    starts with an opening brace has a closing brace; when a tag has none,
    it raises IndexError. *)
Theorem remove_namespace_returns (e : Element) :
  is_ok (remove_namespace e)
  = forallb tag_splits (List.map tag (e :: descendants e)) /\
  (forallb tag_splits (List.map tag (e :: descendants e)) = false ->
   remove_namespace e = Raise IndexError).
Proof.
  assert (Hok : is_ok (remove_namespace e)
                = forallb tag_splits (List.map tag (e :: descendants e))).
  { induction e as [t a x cs tl IH] using Element_nested_ind.
    rewrite remove_namespace_eq. cbn [List.map forallb tag descendants].
    assert (Hcs : is_ok (for_each remove_namespace cs)
                  = forallb tag_splits
                      (List.map tag (flat_map (fun c => c :: descendants c) cs))).
    { rewrite for_each_is_ok. clear t a x tl.
      induction IH as [|c cs Hc _ IHcs]; [reflexivity|].
      cbn [forallb flat_map]. rewrite List.map_app, forallb_app, Hc, IHcs. reflexivity. }
    rewrite <- Hcs. unfold local_tag, tag_splits.
    destruct (startswith (py "{") t); cbn [negb orb].
    - destruct (after_brace t); [|reflexivity]. cbn [mbind result_bind is_none negb andb].
      now destruct (for_each remove_namespace cs).
    - cbn [mbind result_bind andb]. now destruct (for_each remove_namespace cs). }
  split; [exact Hok|]. intros Hbad. rewrite <- Hok in Hbad.
  destruct (remove_namespace e) as [e'|x] eqn:He; [discriminate Hbad|].
  now rewrite (remove_namespace_raises e x He).
Qed.

Lemma remove_namespace_returns_witness :
  remove_namespace tree_unclosed_namespace = Raise IndexError.
Proof.
  apply (proj2 (remove_namespace_returns tree_unclosed_namespace)).
  vm_compute. reflexivity.
Defined.

Lemma after_brace_app (ns rest : str) :
  ~ In 125%N ns -> after_brace (ns ++ 125%N :: rest) = Some rest.
Proof.
  induction ns as [|c ns IH]; intros Hns; [reflexivity|].
  cbn [app after_brace]. unfold char_eqb. destruct (N.eqb_spec c 125) as [->|_].
  - exfalso. apply Hns. now left.
  - apply IH. intros Hin. apply Hns. now right.
Qed.

(** X5: removing the namespaces of a tree whose tags are all written
    [{ns}tag], for a namespace without closing brace, gives the tree with
    the bare tags. *)
Theorem remove_namespace_qualify (ns : str) (e : Element) :
  ~ In 125%N ns -> remove_namespace (qualify ns e) = Ok e.
Proof.
  intros Hns. induction e as [t a x cs tl IH] using Element_nested_ind.
  cbn [qualify]. rewrite remove_namespace_eq.
  assert (Htag : local_tag (py "{" ++ ns ++ py "}" ++ t) = Ok t).
  { change (py "{" ++ ns ++ py "}" ++ t) with (123%N :: ns ++ 125%N :: t).
    unfold local_tag.
    change (startswith (py "{") (123%N :: ns ++ 125%N :: t)) with true.
    change (after_brace (123%N :: ns ++ 125%N :: t))
      with (after_brace (ns ++ 125%N :: t)).
    now rewrite (after_brace_app ns t Hns). }
  rewrite Htag. cbn [mbind result_bind].
  assert (Hcs : for_each remove_namespace (List.map (qualify ns) cs) = Ok cs).
  { clear Htag. induction IH as [|c cs Hc _ IHcs]; [reflexivity|].
    cbn [List.map for_each]. now rewrite Hc, IHcs. }
  now rewrite Hcs.
Qed.

Lemma remove_namespace_qualify_witness :
  remove_namespace (qualify (py "http://www.w3.org/1998/Math/MathML") math_sample)
  = Ok math_sample.
Proof.
  apply remove_namespace_qualify. vm_compute. intuition discriminate.
Defined.

(** A tree without namespaces is returned as it is. *)
Lemma remove_namespace_plain (e : Element) :
  forallb (fun t => negb (startswith (py "{") t)) (List.map tag (e :: descendants e)) = true ->
  remove_namespace e = Ok e.
Proof.
  induction e as [t a x cs tl IH] using Element_nested_ind.
  cbn [List.map forallb tag descendants]. intros Hplain.
  apply andb_true_iff in Hplain as [Ht Hcs]. apply negb_true_iff in Ht.
  rewrite remove_namespace_eq. unfold local_tag. rewrite Ht. cbn [mbind result_bind].
  assert (Heach : for_each remove_namespace cs = Ok cs).
  { clear Ht. induction IH as [|c cs Hc _ IHcs]; [reflexivity|].
    cbn [flat_map] in Hcs. rewrite List.map_app, forallb_app in Hcs.
    apply andb_true_iff in Hcs as [Hhead Hrest].
    cbn [for_each]. now rewrite (Hc Hhead), (IHcs Hrest). }
  now rewrite Heach.
Qed.

(** ** The affiliation flatteners *)

Lemma is_content_prune (c : Element) : is_content (prune c) = is_content c.
Proof. reflexivity. Qed.

(** X6: [stringify_affiliation] reads one level only, and skips the text
    of label and sup children: the attributes, what lies below the
    children and the texts of label and sup children never reach the
    result. *)
Theorem stringify_affiliation_shallow (node : Element) :
  stringify_affiliation
    (mkElement (tag node) [] (text node) (List.map prune (children node)) (tail node))
  = stringify_affiliation node.
Proof.
  unfold stringify_affiliation. cbn [text children tail].
  assert (Hparts :
    flat_map (fun c => [if is_content c then text c else Some (py ""); tail c])
             (List.map prune (children node))
    = flat_map (fun c => [if is_content c then text c else Some (py ""); tail c])
               (children node)).
  { induction (children node) as [|c cs IH]; [reflexivity|].
    cbn [List.map flat_map]. rewrite IH, is_content_prune. f_equal.
    unfold prune. cbn [text tail]. now destruct (is_content c). }
  now rewrite Hparts.
Qed.

Lemma is_content_blank_markers (e : Element) :
  is_content (blank_markers e) = is_content e.
Proof. destruct e as [t a x [|c cs] tl]; reflexivity. Qed.

Lemma recur_children_blank_markers (e : Element) :
  _recur_children (blank_markers e) = _recur_children e.
Proof.
  induction e as [t a x cs tl IH] using Element_nested_ind.
  destruct cs as [|c cs].
  - cbn [blank_markers _recur_children]. unfold is_content. cbn [tag].
    now destruct (negb (str_eqb t (py "label")) && negb (str_eqb t (py "sup"))).
  - cbn [blank_markers List.map _recur_children]. f_equal.
    inversion IH as [|? ? Hc Hcs]; subst. rewrite Hc. f_equal. f_equal.
    clear Hc IH. induction Hcs as [|c' cs Hc' _ IHcs]; [reflexivity|].
    cbn [List.map]. now rewrite Hc', IHcs.
Qed.

(** X7: the recursive flattener does not read the text of a label or sup
    element without children, at any depth: blanking these texts leaves
    the result as it is. *)
Theorem stringify_affiliation_rec_blank_markers (node : Element) :
  stringify_affiliation_rec (blank_markers node) = stringify_affiliation_rec node.
Proof.
  unfold stringify_affiliation_rec. now rewrite recur_children_blank_markers.
Qed.

Lemma filter_nonempty_text (o : option str) :
  List.filter nonempty [text_or_empty o] = List.filter nonempty (option_list o).
Proof. destruct o as [s|]; [|reflexivity]. cbn [text_or_empty]. now rewrite or_empty_id. Qed.

Lemma flatten_app (l1 l2 : list nested) : _flatten (l1 ++ l2) = _flatten l1 ++ _flatten l2.
Proof. unfold _flatten. apply flat_map_app. Qed.

Lemma flatten_children (cs : list Element) :
  _flatten (List.map (fun c => NList (_recur_children c)) cs)
  = flat_map (fun c => _flatten (_recur_children c)) cs.
Proof.
  induction cs as [|c cs IH]; [reflexivity|].
  cbn [List.map flat_map]. rewrite <- IH. unfold _flatten at 1. cbn [flat_map flatten_element].
  reflexivity.
Qed.

(** X8: on a tree without label or sup leaves, the fragments that
    [_flatten] yields for [_recur_children], the empty ones apart, are the
    texts and tails that [itertext] yields, in their order, followed by the
    tail of the node. *)
Theorem flatten_recur_children_itertext (node : Element) :
  no_marker_leaf node = true ->
  List.filter nonempty (_flatten (_recur_children node))
  = List.filter nonempty (itertext node ++ option_list (tail node)).
Proof.
  induction node as [t a x cs tl IH] using Element_nested_ind. intros Hleaf.
  destruct cs as [|c cs].
  - cbn [no_marker_leaf] in Hleaf. cbn [_recur_children]. rewrite Hleaf.
    cbn [itertext flat_map tail]. rewrite app_nil_r, flatten_app, !List.filter_app.
    unfold _flatten. cbn [flat_map flatten_element app].
    now rewrite !filter_nonempty_text.
  - cbn [no_marker_leaf] in Hleaf. cbn [_recur_children itertext tail].
    rewrite !flatten_app, flatten_children, !List.filter_app.
    unfold _flatten at 1 3. cbn [flat_map flatten_element app].
    rewrite !filter_nonempty_text, <- app_assoc. f_equal. f_equal.
    change (List.filter nonempty
              (flat_map (fun c0 => _flatten (_recur_children c0)) (c :: cs))
            = List.filter nonempty
                (flat_map (fun c0 => itertext c0 ++ option_list (tail c0)) (c :: cs))).
    revert IH Hleaf. generalize (c :: cs) as l. intros l IH.
    induction IH as [|c' cs' Hc' _ IHcs]; intros Hleaf; [reflexivity|].
    cbn [forallb] in Hleaf. apply andb_true_iff in Hleaf as [Hhead Hrest].
    cbn [flat_map]. rewrite !List.filter_app, (Hc' Hhead), (IHcs Hrest).
    now rewrite ?List.filter_app.
Qed.

Lemma flatten_recur_children_itertext_witness :
  List.filter nonempty (_flatten (_recur_children affiliation_nested))
  = List.filter nonempty (itertext affiliation_nested ++ option_list (tail affiliation_nested)).
Proof. apply flatten_recur_children_itertext. reflexivity. Defined.

(** ** Days and months written in digits *)

Lemma ascii_digit_decimal (c : char) :
  isascii_digit c = true -> decimal_value c = Some (c - 48)%N.
Proof.
  unfold isascii_digit. intros Hc. unfold decimal_value, decimal_starts.
  cbn [decimal_in]. change (48 + 9)%N with 57%N. now rewrite Hc.
Qed.

Lemma ascii_digit_isdecimal (c : char) :
  isascii_digit c = true -> isdecimal_char c = true.
Proof. intros Hc. unfold isdecimal_char. now rewrite (ascii_digit_decimal c Hc). Qed.

Lemma ascii_digit_isdigit (c : char) :
  isascii_digit c = true -> isdigit_char c = true.
Proof. intros Hc. unfold isdigit_char. now rewrite (ascii_digit_isdecimal c Hc). Qed.

Lemma digit_not_space (c : char) : isascii_digit c = true -> isspace c = false.
Proof.
  unfold isascii_digit, isspace. intros Hc. apply andb_true_iff in Hc as [Hlo Hhi].
  apply N.leb_le in Hlo. apply N.leb_le in Hhi.
  repeat match goal with
         | |- context [(?a <=? ?b)%N] => destruct (N.leb_spec a b); try lia
         | |- context [(?a =? ?b)%N] => destruct (N.eqb_spec a b); try lia
         end; reflexivity.
Qed.

Lemma digit_not_char (c k : char) :
  isascii_digit c = true -> (k < 48 \/ 57 < k)%N -> char_eqb c k = false.
Proof.
  unfold isascii_digit, char_eqb. intros Hc Hk. apply andb_true_iff in Hc as [Hlo Hhi].
  apply N.leb_le in Hlo. apply N.leb_le in Hhi. apply N.eqb_neq. lia.
Qed.

Lemma lstrip_solid_head (c : char) (s : str) : isspace c = false -> lstrip (c :: s) = c :: s.
Proof. intros Hc. cbn [lstrip]. now rewrite Hc. Qed.

Lemma strip_no_space (s : str) :
  Forall (fun c => isspace c = false) s -> strip s = s.
Proof.
  intros Hs. unfold strip, rstrip.
  assert (Hl : forall t, Forall (fun c => isspace c = false) t -> lstrip t = t).
  { intros t Ht. destruct Ht as [|c t Hc _]; [reflexivity | now apply lstrip_solid_head]. }
  rewrite (Hl s Hs), (Hl (rev s)); [apply rev_involutive | now apply Forall_rev].
Qed.

Lemma contains_char (k : char) (s : str) :
  contains [k] s = existsb (char_eqb k) s.
Proof.
  induction s as [|c s IH]; [reflexivity|].
  cbn [contains startswith existsb]. rewrite IH. now rewrite andb_true_r.
Qed.

Lemma digits_forall (s : str) :
  isascii_digits s = true -> Forall (fun c => isascii_digit c = true) s.
Proof.
  unfold isascii_digits. destruct s as [|c s]; [discriminate|].
  intros Hs. apply List.Forall_forall. now apply forallb_forall.
Qed.

Lemma digits_no_period (s : str) :
  Forall (fun c => isascii_digit c = true) s ->
  replace (py ".") (py "") s = s /\ contains (py ".") s = false.
Proof.
  intros Hs. change (py ".") with [46%N]. change (py "") with (@nil N).
  rewrite replace_char_filter, contains_char. induction Hs as [|c s Hc _ [IHr IHc]].
  - split; reflexivity.
  - cbn [List.filter existsb]. rewrite IHr, IHc.
    rewrite (N.eqb_sym c 46). change (N.eqb 46 c) with (char_eqb 46%N c).
    assert (Hne : char_eqb 46%N c = false).
    { unfold char_eqb. rewrite N.eqb_sym. apply (digit_not_char c 46 Hc). lia. }
    rewrite Hne. split; reflexivity.
Qed.

Lemma digits_not_month (c : char) (s : str) :
  isascii_digit c = true -> tm_mon (c :: s) = None.
Proof.
  intros Hc. unfold tm_mon, month_abbr. cbn [List.map py list_ascii_of_string index_of str_eqb].
  repeat (rewrite (digit_not_char c) by (try exact Hc; vm_compute; right; reflexivity)).
  reflexivity.
Qed.

Lemma digits_unicode (s : str) :
  Forall (fun c => isascii_digit c = true) s ->
  forallb isdigit_char s = true /\ forallb isdecimal_char s = true.
Proof.
  intros Hs. induction Hs as [|c s Hc _ [IHd IHm]]; [split; reflexivity|].
  cbn [forallb]. now rewrite (ascii_digit_isdigit c Hc), (ascii_digit_isdecimal c Hc), IHd, IHm.
Qed.

Lemma decimal_number_ascii (s : str) :
  Forall (fun c => isascii_digit c = true) s -> decimal_number s = ascii_number s.
Proof.
  intros Hs. unfold decimal_number, ascii_number.
  assert (Hfold : forall acc,
    fold_left (fun acc c => (10 * acc + default 0 (decimal_value c))%N) s acc
    = fold_left (fun acc c => (10 * acc + (c - 48))%N) s acc).
  { induction Hs as [|c s Hc _ IH]; intros acc; [reflexivity|].
    cbn [fold_left]. rewrite (ascii_digit_decimal c Hc). apply IH. }
  apply Hfold.
Qed.

(** X9: every string of ASCII digits is formatted as the number it writes,
    with a leading zero below ten; the value is not checked against the
    range of a month or of a day. *)
Theorem month_or_day_formater_digits (s : str) :
  isascii_digits s = true ->
  month_or_day_formater s = Ok (Some (two_digits (ascii_number s))).
Proof.
  intros Hs. pose proof (digits_forall s Hs) as Hall.
  destruct (digits_no_period s Hall) as [Hreplace Hcontains].
  destruct (digits_unicode s Hall) as [Hdigit Hdecimal].
  assert (Hstrip : strip s = s).
  { apply strip_no_space. eapply Forall_impl; [exact Hall|]. apply digit_not_space. }
  unfold month_or_day_formater. rewrite Hreplace, Hstrip, Hcontains.
  destruct s as [|c s]; [discriminate Hs|]. inversion Hall as [|? ? Hc _]; subst.
  rewrite (digits_not_month c s Hc). unfold isdigit, int. rewrite Hdigit, Hdecimal.
  cbn [negb andb mbind result_bind]. now rewrite (decimal_number_ascii _ Hall).
Qed.

Lemma month_or_day_formater_digits_witness :
  month_or_day_formater (py "99") = Ok (Some (py "99")) /\
  month_or_day_formater (py "0") = Ok (Some (py "00")).
Proof.
  split.
  - apply (month_or_day_formater_digits (py "99")). reflexivity.
  - apply (month_or_day_formater_digits (py "0")). reflexivity.
Defined.

(** The digits of other scripts: "٣" is a decimal digit and is formatted
    as 03; "²" is a digit for [isdigit] and not for [int], which raises
    ValueError. *)
Lemma month_or_day_formater_other_scripts :
  month_or_day_formater [1635%N] = Ok (Some (py "03")) /\
  month_or_day_formater [178%N] = Raise ValueError.
Proof. split; vm_compute; reflexivity. Qed.

(** ** Further cases of the date resolver *)

(** X10: a Month element without text makes the resolver raise
    AttributeError when the month is asked for, while the same journal
    gives its year under [year_info_only]. *)
Theorem date_extractor_month_without_text (journal issue issue_date y m : Element)
    (rest : list Element) :
  findall (path "JournalIssue") journal = issue :: rest ->
  find (path "PubDate") issue = Some issue_date ->
  find (path "Year") issue_date = Some y ->
  find (path "Month") issue_date = Some m ->
  text m = None ->
  date_extractor journal false = Raise AttributeError /\
  date_extractor journal true = Ok (text y).
Proof.
  intros Hissue Hdate Hyear Hmonth Htext. split.
  - unfold date_extractor, pubdate_fields. rewrite Hissue. cbn [mbind result_bind].
    rewrite Hdate. cbn [deref mbind result_bind]. rewrite Hyear, Hmonth, Htext.
    reflexivity.
  - now apply (date_extractor_year_only journal issue issue_date y rest).
Qed.

Lemma date_extractor_month_without_text_witness :
  date_extractor (journal_of [el "Year" [] (Some "2001") []; el "Month" [] None []]) false
  = Raise AttributeError /\
  date_extractor (journal_of [el "Year" [] (Some "2001") []; el "Month" [] None []]) true
  = Ok (Some (py "2001")).
Proof.
  apply (date_extractor_month_without_text
           (journal_of [el "Year" [] (Some "2001") []; el "Month" [] None []])
           (el "JournalIssue" [] None
               [el "PubDate" [] None [el "Year" [] (Some "2001") []; el "Month" [] None []]])
           (el "PubDate" [] None [el "Year" [] (Some "2001") []; el "Month" [] None []])
           (el "Year" [] (Some "2001") [])
           (el "Month" [] None []) []); reflexivity.
Defined.

(** X11: without a Month element the result is the text of the Year,
    whatever the flag and whatever a Day element holds. *)
Theorem date_extractor_without_month (journal issue issue_date y : Element)
    (rest : list Element) (year_info_only : bool) :
  findall (path "JournalIssue") journal = issue :: rest ->
  find (path "PubDate") issue = Some issue_date ->
  find (path "Year") issue_date = Some y ->
  find (path "Month") issue_date = None ->
  date_extractor journal year_info_only = Ok (text y).
Proof.
  intros Hissue Hdate Hyear Hmonth. destruct year_info_only.
  - now apply (date_extractor_year_only journal issue issue_date y rest).
  - unfold date_extractor, pubdate_fields. rewrite Hissue. cbn [mbind result_bind].
    rewrite Hdate. cbn [deref mbind result_bind]. rewrite Hyear, Hmonth.
    reflexivity.
Qed.

Lemma date_extractor_without_month_witness :
  date_extractor (journal_of [el "Year" [] (Some "2001") []; el "Day" [] (Some "15") []]) false
  = Ok (Some (py "2001")).
Proof.
  apply (date_extractor_without_month
           (journal_of [el "Year" [] (Some "2001") []; el "Day" [] (Some "15") []])
           (el "JournalIssue" [] None
               [el "PubDate" [] None [el "Year" [] (Some "2001") []; el "Day" [] (Some "15") []]])
           (el "PubDate" [] None [el "Year" [] (Some "2001") []; el "Day" [] (Some "15") []])
           (el "Year" [] (Some "2001") []) [] false); reflexivity.
Defined.

Lemma occurs_cons (w s : str) (c : char) : occurs w s -> occurs w (c :: s).
Proof. intros (a & b & ->). now exists (c :: a), b. Qed.

(** Every match of the pattern is a run of four digits of the string. *)
Lemma findall_four_digits_matches (skip : nat) (s : str) :
  Forall (fun m => length m = 4%nat /\ forallb isdecimal_char m = true /\ occurs m s)
         (findall_four_digits skip s).
Proof.
  revert skip. induction s as [|a s IH]; intros skip; [constructor|].
  assert (Htail : forall k,
    Forall (fun m => length m = 4%nat /\ forallb isdecimal_char m = true /\
                     occurs m (a :: s)) (findall_four_digits k s)).
  { intros k. eapply Forall_impl; [apply IH|].
    intros m (Hlen & Hdig & Hocc). repeat split; try assumption. now apply occurs_cons. }
  cbn [findall_four_digits]. destruct skip as [|k]; [|apply Htail].
  destruct s as [|b [|c [|d r]]]; try constructor.
  destruct (forallb isdecimal_char [a; b; c; d]) eqn:Hdig; [|apply Htail].
  constructor; [|apply Htail]. repeat split; [exact Hdig|]. now exists [], r.
Qed.

(** X12: without a Year element, the result does not depend on the flag:
    it is the empty string, or four decimal digits, of any script, read
    in the text of the MedlineDate element. *)
Theorem date_extractor_medline_date (journal issue issue_date md : Element)
    (rest : list Element) (year_text : str) (year_info_only : bool) :
  findall (path "JournalIssue") journal = issue :: rest ->
  find (path "PubDate") issue = Some issue_date ->
  find (path "Year") issue_date = None ->
  find (path "MedlineDate") issue_date = Some md ->
  text md = Some year_text ->
  exists year,
    date_extractor journal year_info_only = Ok (Some year) /\
    (year = py "" \/
     (length year = 4%nat /\ forallb isdecimal_char year = true /\
      occurs year year_text)).
Proof.
  intros Hissue Hdate Hyear Hmd Htext.
  unfold date_extractor, pubdate_fields. rewrite Hissue. cbn [mbind result_bind].
  rewrite Hdate. cbn [deref mbind result_bind]. rewrite Hyear, Hmd, Htext.
  pose proof (findall_four_digits_matches O year_text) as Hall.
  destruct (findall_four_digits O year_text) as [|year l].
  - exists (py ""). cbn [mbind result_bind is_none orb]. rewrite orb_true_r.
    split; [reflexivity | now left].
  - exists year. cbn [mbind result_bind is_none orb]. rewrite orb_true_r.
    split; [reflexivity|]. right. now inversion Hall.
Qed.

Lemma date_extractor_medline_date_witness :
  (exists year,
     date_extractor (journal_medline_date (py "1998 Dec-1999 Jan")) false
     = Ok (Some year) /\
     (year = py "" \/
      (length year = 4%nat /\ forallb isdecimal_char year = true /\
       occurs year (py "1998 Dec-1999 Jan")))) /\
  (exists year,
     date_extractor (journal_medline_date (arabic_indic_2001 ++ py " Spring")) true
     = Ok (Some year) /\
     (year = py "" \/
      (length year = 4%nat /\ forallb isdecimal_char year = true /\
       occurs year (arabic_indic_2001 ++ py " Spring")))).
Proof.
  split.
  - apply (date_extractor_medline_date
             (journal_medline_date (py "1998 Dec-1999 Jan"))
             (el "JournalIssue" [] None
                 [el "PubDate" [] None
                     [mkElement (py "MedlineDate") [] (Some (py "1998 Dec-1999 Jan")) [] None]])
             (el "PubDate" [] None
                 [mkElement (py "MedlineDate") [] (Some (py "1998 Dec-1999 Jan")) [] None])
             (mkElement (py "MedlineDate") [] (Some (py "1998 Dec-1999 Jan")) [] None) []
             (py "1998 Dec-1999 Jan") false); reflexivity.
  - apply (date_extractor_medline_date
             (journal_medline_date (arabic_indic_2001 ++ py " Spring"))
             (el "JournalIssue" [] None
                 [el "PubDate" [] None
                     [mkElement (py "MedlineDate") []
                                (Some (arabic_indic_2001 ++ py " Spring")) [] None]])
             (el "PubDate" [] None
                 [mkElement (py "MedlineDate") []
                            (Some (arabic_indic_2001 ++ py " Spring")) [] None])
             (mkElement (py "MedlineDate") []
                        (Some (arabic_indic_2001 ++ py " Spring")) [] None) []
             (arabic_indic_2001 ++ py " Spring") true); reflexivity.
Defined.

(** The years that the two samples give. *)
Lemma date_extractor_medline_date_samples :
  date_extractor (journal_medline_date (py "1998 Dec-1999 Jan")) false
  = Ok (Some (py "1998")) /\
  date_extractor (journal_medline_date (arabic_indic_2001 ++ py " Spring")) false
  = Ok (Some arabic_indic_2001) /\
  date_extractor (journal_medline_date (py "Spring 99")) false = Ok (Some (py "")).
Proof. repeat split; vm_compute; reflexivity. Qed.

(** ** The shape of a normalized string *)

Lemma length_sub_spaces (f : bool) (s : str) : length (sub_spaces f s) <= length s.
Proof.
  revert f; induction s as [|c s IH]; intros f; [reflexivity|].
  pose proof (IH true) as Htrue. pose proof (IH false) as Hfalse.
  cbn [sub_spaces]. destruct (char_eqb c 32%N); [destruct f|]; cbn [length]; lia.
Qed.

Lemma length_strip (s : str) : length (strip s) <= length s.
Proof.
  destruct (strip_segment s) as (p & q & Hs). rewrite Hs at 2.
  rewrite !length_app. lia.
Qed.

Lemma to_space_fixed (c : char) :
  to_space space_chars c = c -> In c space_chars -> c = 32%N.
Proof.
  unfold to_space. intros Hc Hin.
  destruct (existsb (N.eqb c) space_chars) eqn:Hex; [now symmetry|].
  assert (Htrue : existsb (N.eqb c) space_chars = true).
  { apply existsb_exists. exists c. split; [exact Hin | apply N.eqb_refl]. }
  congruence.
Qed.

(** The result of the normalization meets what [normalize_whitespace_fixed]
    asks. *)
Lemma normalize_whitespace_normal (s : str) :
  Forall (fun c => to_space space_chars c = c /\ not_newline c = true)
         (normalize_whitespace s) /\
  no_run false (normalize_whitespace s) = true /\
  strip (normalize_whitespace s) = normalize_whitespace s.
Proof.
  rewrite normalize_whitespace_eq. split; [|split].
  - apply Forall_strip, Forall_sub_spaces.
    induction s as [|c s IH]; [constructor|].
    cbn [List.map List.filter].
    destruct (not_newline (to_space space_chars c)) eqn:Hc; [|exact IH].
    constructor; [|exact IH]. split; [apply to_space_idem | exact Hc].
  - apply no_run_strip, no_run_sub_spaces.
  - apply strip_idem.
Qed.

(** X13: a normalized string holds no newline and none of the replaced
    characters but the space, no two spaces in a row and no whitespace at
    either end, and it is not longer than the string it comes from. *)
Theorem normalize_whitespace_shape (s : str) :
  Forall (fun c => c <> 10%N /\ (In c space_chars -> c = 32%N))
         (normalize_whitespace s) /\
  no_run false (normalize_whitespace s) = true /\
  strip (normalize_whitespace s) = normalize_whitespace s /\
  length (normalize_whitespace s) <= length s.
Proof.
  destruct (normalize_whitespace_normal s) as (Hchars & Hrun & Hstrip).
  split; [|split; [exact Hrun | split; [exact Hstrip|]]].
  - eapply Forall_impl; [exact Hchars|]. intros c [Hc Hnl]. split.
    + unfold not_newline in Hnl. now apply negb_true_iff, N.eqb_neq in Hnl.
    + now apply to_space_fixed.
  - rewrite normalize_whitespace_eq.
    etransitivity; [apply length_strip|].
    etransitivity; [apply length_sub_spaces|].
    etransitivity; [apply List.filter_length_le|]. now rewrite length_map.
Qed.

(** ** The keys of the records *)

Lemma record_fields_dom (v1 v2 v3 v4 v5 v6 v7 v8 v9 v10 v11 v12 v13 v14 v15
                          v16 v17 v18 v19 : pyval) :
  dom (update
         (update
            (<["title"%string := v1]>
            (<["abstract"%string := v2]>
            (<["journal"%string := v3]>
            (<["author"%string := v4]>
            (<["affiliation"%string := v5]>
            (<["pubdate"%string := v6]>
            (<["pmid"%string := v7]>
            (<["mesh_terms"%string := v8]>
            (<["publication_types"%string := v9]>
            (<["chemical_list"%string := v10]>
            (<["keywords"%string := v11]>
            (<["doi"%string := v12]>
            (<["delete"%string := v13]> ∅)))))))))))))
            (<["pmc"%string := v14]> (<["other_id"%string := v15]> ∅)))
         (<["medline_ta"%string := v16]>
            (<["nlm_unique_id"%string := v17]>
               (<["issn_linking"%string := v18]>
                  (<["country"%string := v19]> ∅)))))
  = list_to_set record_fields.
Proof.
  unfold update. rewrite !dom_union_L, !dom_insert_L, !dom_empty_L.
  unfold record_fields. simpl. set_solver.
Qed.

Section RecordProperties.
Context `{Etree}.

Lemma parse_title_normal (article : Element) (subscpt supscpt : option (str * str))
    (title : str) :
  parse_title article subscpt supscpt = Ok title ->
  normalize_whitespace title = title.
Proof.
  unfold parse_title. intros Ht. apply bind_Ok in Ht as (t0 & _ & Ht).
  injection Ht as <-.
  destruct (normalize_whitespace_normal t0) as (Hchars & Hrun & Hstrip).
  now apply normalize_whitespace_fixed.
Qed.

Lemma parse_abstract_normal (article : Element) (nlm_category : bool)
    (subscpt supscpt : option (str * str)) (incl_sections : bool) (abstract : str) :
  parse_abstract article nlm_category subscpt supscpt incl_sections = Ok abstract ->
  normalize_whitespace abstract = abstract.
Proof.
  unfold parse_abstract. intros Ha. apply bind_Ok in Ha as (a0 & _ & Ha).
  injection Ha as <-.
  destruct (normalize_whitespace_normal a0) as (Hchars & Hrun & Hstrip).
  now apply normalize_whitespace_fixed.
Qed.

(** A returned record, key by key. *)
Lemma parse_article_info_shape (medline : Element)
    (year_info_only nlm_category : bool)
    (subscpt supscpt : option (str * str)) (incl_sections : bool)
    (d : gmap string pyval) :
  parse_article_info medline year_info_only nlm_category subscpt supscpt
                     incl_sections = Ok d ->
  exists article title abstract v3 v4 v5 v6 v7 v8 v9 v10 v11 v12 v14 v15 v16 v17 v18 v19,
    parse_title article subscpt supscpt = Ok title /\
    parse_abstract article nlm_category subscpt supscpt incl_sections = Ok abstract /\
    d = update
          (update
             (<["title"%string := PStr title]>
             (<["abstract"%string := PStr abstract]>
             (<["journal"%string := v3]>
             (<["author"%string := v4]>
             (<["affiliation"%string := v5]>
             (<["pubdate"%string := v6]>
             (<["pmid"%string := v7]>
             (<["mesh_terms"%string := v8]>
             (<["publication_types"%string := v9]>
             (<["chemical_list"%string := v10]>
             (<["keywords"%string := v11]>
             (<["doi"%string := v12]>
             (<["delete"%string := PBool false]> ∅)))))))))))))
             (<["pmc"%string := v14]> (<["other_id"%string := v15]> ∅)))
          (<["medline_ta"%string := v16]>
             (<["nlm_unique_id"%string := v17]>
                (<["issn_linking"%string := v18]>
                   (<["country"%string := v19]> ∅)))).
Proof.
  unfold parse_article_info. intros Hd.
  apply bind_Ok in Hd as (article & _ & Hd).
  apply bind_Ok in Hd as (title & Htitle & Hd).
  apply bind_Ok in Hd as (abstract & Habstract & Hd).
  destruct (parse_authors article) as [authors_info affiliations_info].
  apply bind_Ok in Hd as (journal & _ & Hd).
  apply bind_Ok in Hd as (pubdate & _ & Hd).
  apply bind_Ok in Hd as (doi & _ & Hd).
  apply bind_Ok in Hd as (mesh_terms & _ & Hd).
  apply bind_Ok in Hd as (publication_types & _ & Hd).
  apply bind_Ok in Hd as (chemical_list & _ & Hd).
  apply bind_Ok in Hd as (other_id_dict & Hother & Hd).
  injection Hd as <-.
  apply parse_other_id_keys in Hother as (pmc & other_id & ->).
  destruct (parse_journal_info_keys medline) as (ta & nlm & issn & country & ->).
  exists article, title, abstract. do 16 eexists.
  split; [exact Htitle|]. split; [exact Habstract | reflexivity].
Qed.

Lemma parse_article_info_dom (medline : Element)
    (year_info_only nlm_category : bool)
    (subscpt supscpt : option (str * str)) (incl_sections : bool)
    (d : gmap string pyval) :
  parse_article_info medline year_info_only nlm_category subscpt supscpt
                     incl_sections = Ok d ->
  dom d = list_to_set record_fields.
Proof.
  intros Hd. apply parse_article_info_shape in Hd
    as (article & title & abstract & v3 & v4 & v5 & v6 & v7 & v8 & v9 & v10 &
        v11 & v12 & v14 & v15 & v16 & v17 & v18 & v19 & _ & _ & ->).
  apply record_fields_dom.
Qed.

(** X14: every record that the assembler returns has the nineteen fields
    of a MedlineRecord, no other, the same as the stub of a deletion
    notice; its title and its abstract are strings that the whitespace
    normalization leaves as they are. *)
Theorem parse_article_info_fields (medline : Element)
    (year_info_only nlm_category : bool)
    (subscpt supscpt : option (str * str)) (incl_sections : bool)
    (d : gmap string pyval) :
  parse_article_info medline year_info_only nlm_category subscpt supscpt
                     incl_sections = Ok d ->
  dom d = list_to_set record_fields /\
  (forall p, dom d = dom (delete_stub p)) /\
  exists title abstract,
    d !! "title"%string = Some (PStr title) /\
    normalize_whitespace title = title /\
    d !! "abstract"%string = Some (PStr abstract) /\
    normalize_whitespace abstract = abstract.
Proof.
  intros Hd. pose proof (parse_article_info_dom _ _ _ _ _ _ _ Hd) as Hdom.
  split; [exact Hdom|]. split.
  - intros p. rewrite Hdom. symmetry. apply delete_stub_is_stub.
  - apply parse_article_info_shape in Hd
      as (article & title & abstract & v3 & v4 & v5 & v6 & v7 & v8 & v9 & v10 &
          v11 & v12 & v14 & v15 & v16 & v17 & v18 & v19 & Htitle & Habstract & ->).
    exists title, abstract. unfold update.
    split; [|split; [now apply (parse_title_normal article subscpt supscpt)|split]].
    + rewrite lookup_union_r; [rewrite lookup_union_r; [apply lookup_insert_eq|]|];
        repeat (rewrite lookup_insert_ne by discriminate); apply lookup_empty.
    + rewrite lookup_union_r; [rewrite lookup_union_r|];
        repeat (rewrite lookup_insert_ne by discriminate);
        first [apply lookup_insert_eq | apply lookup_empty].
    + now apply (parse_abstract_normal article nlm_category subscpt supscpt incl_sections).
Qed.

(** X15: the driver returns exactly when every citation of the document
    assembles: one citation that raises leaves no record of the others;
    what it returns has one record for each citation and one for each
    deletion notice, all with the nineteen fields. *)
Theorem parse_medline_xml_all_or_nothing (tree : Element)
    (year_info_only nlm_category : bool) (subscpt supscpt : option (str * str)) :
  is_ok (parse_medline_xml tree year_info_only nlm_category subscpt supscpt)
  = forallb (fun m => is_ok (parse_article_info m year_info_only nlm_category
                                                subscpt supscpt false))
            (medline_citations tree) /\
  forall records,
    parse_medline_xml tree year_info_only nlm_category subscpt supscpt = Ok records ->
    length records
    = (length (medline_citations tree) + length (delete_citations tree))%nat /\
    Forall (fun d => dom d = list_to_set record_fields) records.
Proof.
  unfold parse_medline_xml. split.
  - rewrite <- for_each_is_ok.
    now destruct (for_each _ (medline_citations tree)).
  - intros records Hrecords. apply bind_Ok in Hrecords as (article_list & Hlive & Hrecords).
    injection Hrecords as <-. apply for_each_Forall2 in Hlive. split.
    + rewrite length_app. unfold dict_delete. rewrite length_map.
      now rewrite (Forall2_length _ _ _ Hlive).
    + apply Forall_app. split.
      * induction Hlive as [|m d l l' Hd _ IH]; constructor; [|exact IH].
        now apply parse_article_info_dom in Hd.
      * unfold dict_delete. apply Forall_map. apply Forall_forall.
        intros p _. apply delete_stub_is_stub.
Qed.

End RecordProperties.

Lemma parse_article_info_fields_witness :
  exists d,
    @parse_article_info etree_idle (citation_structured " a " "b" "c")
      false false None None true = Ok d /\
    dom d = list_to_set record_fields /\
    (forall p, dom d = dom (delete_stub p)) /\
    exists title abstract,
      d !! "title"%string = Some (PStr title) /\
      normalize_whitespace title = title /\
      d !! "abstract"%string = Some (PStr abstract) /\
      normalize_whitespace abstract = abstract.
Proof.
  destruct (is_ok_true
              (@parse_article_info etree_idle (citation_structured " a " "b" "c")
                 false false None None true)) as [d Hd].
  - vm_compute. reflexivity.
  - exists d. split; [exact Hd|].
    exact (@parse_article_info_fields etree_idle _ _ _ _ _ _ d Hd).
Defined.

Lemma parse_medline_xml_all_or_nothing_witness :
  is_ok (@parse_medline_xml etree_idle
           (document [citation [] []; citation_doi_without_text] ["12345"]%string)
           true false None None) = false /\
  exists records,
    @parse_medline_xml etree_idle document_with_deletions true false None None
    = Ok records /\
    length records = 3%nat /\
    Forall (fun d => dom d = list_to_set record_fields) records.
Proof.
  split.
  - rewrite (proj1 (@parse_medline_xml_all_or_nothing etree_idle
                      (document [citation [] []; citation_doi_without_text] ["12345"]%string)
                      true false None None)).
    vm_compute. reflexivity.
  - destruct (is_ok_true
                (@parse_medline_xml etree_idle document_with_deletions
                   true false None None)) as [records Hrecords].
    + vm_compute. reflexivity.
    + exists records. split; [exact Hrecords|].
      exact (proj2 (@parse_medline_xml_all_or_nothing etree_idle
                      document_with_deletions true false None None)
                   records Hrecords).
Defined.

(** ** When the scalar extractors return *)

Lemma forallb_pointwise {A} (f g : A -> bool) (l : list A) :
  (forall x, f x = g x) -> forallb f l = forallb g l.
Proof.
  intros Hfg. induction l as [|x l IH]; [reflexivity|].
  cbn [forallb]. now rewrite Hfg, IH.
Qed.

(** X16: [parse_mesh_terms] returns exactly when every child of the
    MeshHeadingList has a DescriptorName with a text. *)
Theorem parse_mesh_terms_returns (medline : Element) :
  is_ok (parse_mesh_terms medline)
  = match find (path "MeshHeadingList") medline with
    | Some mesh => forallb heading_complete (children mesh)
    | None => true
    end.
Proof.
  unfold parse_mesh_terms.
  destruct (find (path "MeshHeadingList") medline) as [mesh|]; [|reflexivity].
  transitivity (is_ok (for_each
    (fun m => d ← deref (find (path "DescriptorName") m);
              concat_text (get (attrib d) (py "UI") (py "") ++ py ":") d)
    (children mesh))).
  - now destruct (for_each _ (children mesh)).
  - rewrite for_each_is_ok. apply forallb_pointwise. intros m. unfold heading_complete.
    destruct (find (path "DescriptorName") m) as [d|]; [|reflexivity].
    cbn [deref mbind result_bind]. unfold concat_text, text_present.
    now destruct (text d).
Qed.

(** X17: [parse_publication_types] returns exactly when every
    PublicationType of the list has a text. *)
Theorem parse_publication_types_returns (medline : Element) :
  is_ok (parse_publication_types medline)
  = match find (path "Article/PublicationTypeList") medline with
    | Some l => forallb text_present (findall (path "PublicationType") l)
    | None => true
    end.
Proof.
  unfold parse_publication_types.
  destruct (find (path "Article/PublicationTypeList") medline) as [l|]; [|reflexivity].
  transitivity (is_ok (for_each
    (fun publication_type =>
       t ← text_strip publication_type;
       Ok (get (attrib publication_type) (py "UI") (py "") ++ py ":" ++ or_empty t))
    (findall (path "PublicationType") l))).
  - now destruct (for_each _ (findall (path "PublicationType") l)).
  - rewrite for_each_is_ok. apply forallb_pointwise. intros e.
    unfold text_strip, text_present. now destruct (text e).
Qed.

(** X18: [parse_chemical_list] returns exactly when every Chemical of the
    list has a NameOfSubstance with a text. *)
Theorem parse_chemical_list_returns (medline : Element) :
  is_ok (parse_chemical_list medline)
  = match find (path "ChemicalList") medline with
    | Some chemicals => forallb chemical_complete (findall (path "Chemical") chemicals)
    | None => true
    end.
Proof.
  unfold parse_chemical_list.
  destruct (find (path "ChemicalList") medline) as [chemicals|]; [|reflexivity].
  transitivity (is_ok (for_each
    (fun chemical =>
       substance_name ← deref (find (path "NameOfSubstance") chemical);
       t ← text_strip substance_name;
       Ok (get (attrib substance_name) (py "UI") (py "") ++ py ":" ++ or_empty t))
    (findall (path "Chemical") chemicals))).
  - now destruct (for_each _ (findall (path "Chemical") chemicals)).
  - rewrite for_each_is_ok. apply forallb_pointwise. intros c. unfold chemical_complete.
    destruct (find (path "NameOfSubstance") c) as [n|]; [|reflexivity].
    cbn [deref mbind result_bind]. unfold text_strip, text_present.
    now destruct (text n).
Qed.

Lemma other_id_loop_is_ok (oids : list Element) (pmc : str) (other_id : list str) :
  is_ok (other_id_loop oids pmc other_id) = forallb text_present oids.
Proof.
  revert pmc other_id. induction oids as [|oid oids IH]; intros pmc other_id;
    [reflexivity|].
  cbn [other_id_loop forallb]. unfold text_present at 1.
  destruct (text oid) as [t|]; [|reflexivity]. cbn [is_none negb andb].
  destruct (contains (py "PMC") t); apply IH.
Qed.

(** X19: [parse_other_id] returns exactly when every OtherID of the
    citation has a text; one OtherID without text makes it raise, whatever
    the others hold. *)
Theorem parse_other_id_returns (medline : Element) :
  is_ok (parse_other_id medline)
  = forallb text_present (findall (path "OtherID") medline).
Proof.
  unfold parse_other_id. rewrite <- (other_id_loop_is_ok _ (py "") []).
  now destruct (other_id_loop _ (py "") []) as [[pmc other_id]|e].
Qed.

Lemma doi_loop_is_ok (es : list Element) (doi : str) :
  is_ok (doi_loop es doi) = forallb doi_readable es.
Proof.
  revert doi. induction es as [|e es IH]; intros doi; [reflexivity|].
  cbn [doi_loop forallb]. unfold doi_of, doi_readable at 1, text_strip, text_present.
  destruct (is_doi e); cbn [negb orb].
  - destruct (text e) as [t|]; [|reflexivity]. cbn [mbind result_bind is_none negb andb].
    apply IH.
  - cbn [mbind result_bind andb]. apply IH.
Qed.

(** X20: [parse_doi] returns exactly when the citation has an Article all
    of whose doi-typed ELocationID elements have a text; the text of the
    other ELocationID elements is not read. *)
Theorem parse_doi_returns (medline : Element) :
  is_ok (parse_doi medline)
  = match find (path "Article") medline with
    | Some article => forallb doi_readable (findall (path "ELocationID") article)
    | None => false
    end.
Proof.
  unfold parse_doi. destruct (find (path "Article") medline) as [article|]; [|reflexivity].
  cbn [deref mbind result_bind]. apply doi_loop_is_ok.
Qed.

(** ** Journal information and authors *)

(** X21: the journal information has the four keys of its own, and its
    [medline_ta] is a string without whitespace at either end. *)
Theorem parse_journal_info_medline_ta (medline : Element) :
  dom (parse_journal_info medline)
  = list_to_set ["medline_ta"; "nlm_unique_id"; "issn_linking"; "country"]%string /\
  exists medline_ta,
    parse_journal_info medline !! "medline_ta"%string = Some (PStr medline_ta) /\
    strip medline_ta = medline_ta.
Proof.
  unfold parse_journal_info.
  destruct (match find (path "MedlineJournalInfo") medline with
            | Some journal_info => _
            | None => _
            end) as [[[ta nlm] issn] country].
  split.
  - rewrite !dom_insert_L, dom_empty_L. simpl. set_solver.
  - exists (strip ta). split; [apply lookup_insert_eq | apply strip_idem].
Qed.

Lemma rstrip_space_end (s : str) : rstrip (s ++ [32%N]) = rstrip s.
Proof. unfold rstrip. now rewrite rev_app_distr. Qed.

Lemma lstrip_app (a b : str) :
  lstrip (a ++ b) = match lstrip a with
                    | [] => lstrip b
                    | _ :: _ => lstrip a ++ b
                    end.
Proof.
  induction a as [|c a IH]; [reflexivity|].
  cbn [app lstrip]. destruct (isspace c); [exact IH | reflexivity].
Qed.

Lemma strip_space_start (s : str) : strip (py " " ++ s) = strip s.
Proof. reflexivity. Qed.

Lemma strip_space_end (s : str) : strip (s ++ py " ") = strip s.
Proof.
  unfold strip. change (py " ") with [32%N]. rewrite lstrip_app.
  destruct (lstrip s) as [|c t]; [reflexivity|]. apply rstrip_space_end.
Qed.

(** X22: a missing part of the name leaves no stray space: the name of an
    author without Initials is the stripped last name, and the name of an
    author without LastName is the stripped initials. *)
Theorem author_info_one_part (author e : Element) (name : str) :
  text e = Some name ->
  (find (path "Initials") author = None ->
   find (path "LastName") author = Some e ->
   fst (author_info author) = strip name) /\
  (find (path "LastName") author = None ->
   find (path "Initials") author = Some e ->
   fst (author_info author) = strip name).
Proof.
  intros Hname. unfold author_info. split; intros Hnone Hsome;
    rewrite Hnone, Hsome, Hname; cbn [fst text_or_empty]; rewrite or_empty_id.
  - apply strip_space_start.
  - change (py "") with (@nil N). rewrite app_nil_r. apply strip_space_end.
Qed.

Lemma author_info_one_part_witness :
  fst (author_info author_last_only) = py "Curie" /\
  fst (author_info author_initials_only) = py "MS".
Proof.
  split.
  - apply (proj1 (author_info_one_part author_last_only
                    (el "LastName" [] (Some "Curie") []) (py "Curie") eq_refl));
      reflexivity.
  - apply (proj2 (author_info_one_part author_initials_only
                    (el "Initials" [] (Some "MS") []) (py "MS") eq_refl));
      reflexivity.
Defined.

(** ** Abstracts of one section, and runs without markers *)

Section AbstractCases.
Context `{Etree}.

(** X23: the labels are for structured abstracts only: with at most one
    AbstractText, the abstract is the same whether section labels are
    requested or not, and whatever the label source. *)
Theorem parse_abstract_one_section (article : Element) (n1 n2 i1 i2 : bool)
    (subscpt supscpt : option (str * str)) :
  length (findall (path "Abstract/AbstractText") article) <= 1 ->
  parse_abstract article n1 subscpt supscpt i1
  = parse_abstract article n2 subscpt supscpt i2.
Proof.
  intros Hlen. unfold parse_abstract, find.
  destruct (findall (path "Abstract/AbstractText") article) as [|s [|s' rest]].
  - reflexivity.
  - reflexivity.
  - cbn [length] in Hlen. lia.
Qed.

End AbstractCases.

Lemma parse_abstract_one_section_witness :
  @parse_abstract etree_idle article_one_section false None None true
  = @parse_abstract etree_idle article_one_section false None None false.
Proof.
  apply (@parse_abstract_one_section etree_idle article_one_section
           false false true false None None).
  vm_compute. lia.
Defined.

(** Without markers nothing is serialized or parsed again: the record does
    not depend on what lxml's [tostring] and [fromstring] do. *)
Lemma parse_article_info_without_markers (E1 E2 : Etree) (medline : Element)
    (year_info_only nlm_category incl_sections : bool) :
  @parse_article_info E1 medline year_info_only nlm_category None None incl_sections
  = @parse_article_info E2 medline year_info_only nlm_category None None incl_sections.
Proof. reflexivity. Qed.

(** * The claims that an element without text breaks *)

(** C3 (the code at the failing inputs): a doi-typed ELocationID without
    text makes [parse_doi] raise AttributeError, whether a pii follows it
    (the DOI field should be the empty string) or a doi with a text
    follows it (the DOI field should be that text). *)
Theorem parse_doi_raises_on_doi_without_text :
  parse_doi (citation doi_without_text_then_pii []) = Raise AttributeError /\
  parse_doi (citation doi_without_text_then_doi []) = Raise AttributeError.
Proof. split; vm_compute; reflexivity. Qed.

(** C10 (the code at the failing input): with the OtherID nodes "PMC1",
    "PMC3" and one without text, [parse_other_id] raises TypeError and
    returns no [pmc], where "PMC3" is expected. *)
Theorem parse_other_id_raises_after_pmc :
  List.map text (findall (path "OtherID") citation_pmc_then_other_id_without_text)
  = [Some (py "PMC1"); Some (py "PMC3"); None] /\
  parse_other_id citation_pmc_then_other_id_without_text = Raise TypeError.
Proof. split; vm_compute; reflexivity. Qed.

(** C7 (the code at the failing input): the document holds the deletion
    notice 12345 and a citation with an OtherID without text: the driver
    raises TypeError for every configuration and emits no stub; without
    that citation it returns the record of the other citation followed by
    the stub of the notice. *)
Theorem parse_medline_xml_no_stub_when_citation_raises :
  List.map text (delete_citations document_notice_and_raising_citation)
  = [Some (py "12345")] /\
  (forall year_info_only nlm_category : bool,
      @parse_medline_xml etree_idle document_notice_and_raising_citation
        year_info_only nlm_category None None = Raise TypeError) /\
  exists article,
    @parse_medline_xml etree_idle document_notice true false None None
    = Ok [article; delete_stub (el "PMID" [] (Some "12345") [])] /\
    delete_stub (el "PMID" [] (Some "12345") []) !! "pmid"%string
    = Some (PStr (py "12345")) /\
    delete_stub (el "PMID" [] (Some "12345") []) !! "delete"%string
    = Some (PBool true).
Proof.
  split; [vm_compute; reflexivity|]. split.
  - intros [|] [|]; vm_compute; reflexivity.
  - destruct (is_ok_true
                (@parse_article_info etree_idle (citation [] [])
                   true false None None false)) as [article Harticle].
    { vm_compute. reflexivity. }
    exists article. split; [|split].
    + unfold parse_medline_xml, dict_delete.
      replace (medline_citations document_notice)
        with [citation [] []] by (vm_compute; reflexivity).
      replace (delete_citations document_notice)
        with [el "PMID" [] (Some "12345") []] by (vm_compute; reflexivity).
      cbn [for_each]. rewrite Harticle. reflexivity.
    + unfold delete_stub.
      do 6 (apply lookup_insert_Some; right; split; [discriminate|]).
      apply lookup_insert_eq.
    + unfold delete_stub.
      do 14 (apply lookup_insert_Some; right; split; [discriminate|]).
      apply lookup_insert_eq.
Qed.
